(** * pitfall_or_rtfm: the two analysis scripts

  [scripts/analyze_sample_results.py] (the ratio summarizer) and
  [scripts/generate_statistical_analysis.py] (the hypothesis tester),
  embedded as Rocq functions.

  Numbers.  A Python float literal of the scripts is a finite double; it is
  modelled by the real number it denotes, and arithmetic on finite values
  is exact (rounding, overflow and the sign of zero are not modelled).  What
  IS modelled is the part of IEEE 754 the scripts can reach from finite
  data: NumPy scalars divide by zero without raising and produce [inf] and
  [nan], which then propagate, whereas Python's own [/] raises
  [ZeroDivisionError].  Properties that turn on a sign, a zero, an
  infinity or a [nan] are stated on the values the functions compute and
  return (the means, the variances and the pooled standard deviation as
  NumPy produced them), not on statistics of the samples taken over the
  reals. *)

From Stdlib Require Import Reals Lra Lia List String ZArith Bool.
Import ListNotations.
Open Scope R_scope.

(** Comparisons of finite values, as booleans. *)
Definition Rltb (x y : R) : bool := if Rlt_dec x y then true else false.
Definition Rleb (x y : R) : bool := if Rle_dec x y then true else false.
Definition Reqb (x y : R) : bool := if Req_dec_T x y then true else false.
Definition Rgeb (x y : R) : bool := Rleb y x.

(** Decide every comparison in sight, then leave linear arithmetic. *)
Ltac cmp :=
  unfold Rgeb, Rltb, Rleb, Reqb in *;
  repeat match goal with
    | |- context [Rlt_dec ?a ?b] => destruct (Rlt_dec a b)
    | |- context [Rle_dec ?a ?b] => destruct (Rle_dec a b)
    | |- context [Req_dec_T ?a ?b] => destruct (Req_dec_T a b)
    | H : context [Rlt_dec ?a ?b] |- _ => destruct (Rlt_dec a b)
    | H : context [Rle_dec ?a ?b] |- _ => destruct (Rle_dec a b)
    | H : context [Req_dec_T ?a ?b] |- _ => destruct (Req_dec_T a b)
    end;
  try reflexivity; try discriminate; try lra.

(** ** Python: exceptions, dicts, built-ins *)
Module Py.

Inductive exn : Type :=
| ZeroDivisionError
| KeyError (key : string)
| ValueError.

Inductive result (A : Type) : Type :=
| Ok (a : A)
| Raise (e : exn).
Arguments Ok {A} a.
Arguments Raise {A} e.

Definition ret {A} (a : A) : result A := Ok a.

Definition bind {A B} (m : result A) (k : A -> result B) : result B :=
  match m with
  | Ok a => k a
  | Raise e => Raise e
  end.

Definition raises {A} (m : result A) : Prop := exists e, m = Raise e.

(** A dict in insertion order; its keys are pairwise distinct. *)
Definition dict (V : Type) : Type := list (string * V).

Definition keys {V} (d : dict V) : list string := map fst d.

(** [d[k]] *)
Fixpoint getitem {V} (d : dict V) (k : string) : result V :=
  match d with
  | [] => Raise (KeyError k)
  | (k', v) :: d' => if String.eqb k k' then Ok v else getitem d' k
  end.

(** [d[k] = v]: the value is replaced in place, a new key goes last. *)
Fixpoint setitem {V} (d : dict V) (k : string) (v : V) : dict V :=
  match d with
  | [] => [(k, v)]
  | (k', v') :: d' =>
      if String.eqb k k' then (k', v) :: d' else (k', v') :: setitem d' k v
  end.

(** [len(xs)] *)
Definition len {A} (xs : list A) : Z := Z.of_nat (List.length xs).

(** [x / y] on Python floats and ints (true division). *)
Definition truediv (x y : R) : result R :=
  if Reqb y 0 then Raise ZeroDivisionError else Ok (x / y).

(** [sum(xs)] *)
Definition sum (xs : list R) : R := fold_left Rplus xs 0.

(** [max(xs)] and [min(xs)]: [ValueError] on an empty sequence. *)
Definition max (xs : list R) : result R :=
  match xs with
  | [] => Raise ValueError
  | x :: xs' => Ok (fold_left Rmax xs' x)
  end.

Definition min (xs : list R) : result R :=
  match xs with
  | [] => Raise ValueError
  | x :: xs' => Ok (fold_left Rmin xs' x)
  end.

(** [for x in xs: st = body(st, x)], stopping at the first exception. *)
Fixpoint for_each {S A} (body : S -> A -> result S) (xs : list A) (st : S)
  : result S :=
  match xs with
  | [] => Ok st
  | x :: xs' => bind (body st x) (for_each body xs')
  end.

End Py.

Declare Scope py_scope.
Delimit Scope py_scope with py.
Notation "x <- m ;; k" := (Py.bind m (fun x => k))
(at level 61, m at next level, right associativity) : py_scope.
Open Scope py_scope.

(** ** NumPy scalars: [np.float64] *)
Module Float64.

Inductive float64 : Type :=
| Fin (x : R)
| PInf
| NInf
| NaN.

Definition opp (a : float64) : float64 :=
  match a with
  | Fin x => Fin (- x)
  | PInf => NInf
  | NInf => PInf
  | NaN => NaN
  end.

Definition add (a b : float64) : float64 :=
  match a, b with
  | NaN, _ | _, NaN => NaN
  | Fin x, Fin y => Fin (x + y)
  | PInf, NInf | NInf, PInf => NaN
  | PInf, _ | _, PInf => PInf
  | NInf, _ | _, NInf => NInf
  end.

Definition sub (a b : float64) : float64 := add a (opp b).

(** The infinity with the sign of [x], [nan] when [x] is zero. *)
Definition signed_inf (x : R) : float64 :=
  if Rltb 0 x then PInf else if Rltb x 0 then NInf else NaN.

Definition mul (a b : float64) : float64 :=
  match a, b with
  | NaN, _ | _, NaN => NaN
  | Fin x, Fin y => Fin (x * y)
  | Fin x, PInf | PInf, Fin x => signed_inf x
  | Fin x, NInf | NInf, Fin x => signed_inf (- x)
  | PInf, PInf | NInf, NInf => PInf
  | PInf, NInf | NInf, PInf => NInf
  end.

(** Division never raises: [x / 0] is an infinity, [0 / 0] is [nan]. *)
Definition div (a b : float64) : float64 :=
  match a, b with
  | NaN, _ | _, NaN => NaN
  | Fin x, Fin y => if Reqb y 0 then signed_inf x else Fin (x / y)
  | Fin _, (PInf | NInf) => Fin 0
  | (PInf | NInf), (PInf | NInf) => NaN
  | PInf, Fin y => if Rltb y 0 then NInf else PInf
  | NInf, Fin y => if Rltb y 0 then PInf else NInf
  end.

(** [np.sqrt] *)
Definition sqrt (a : float64) : float64 :=
  match a with
  | Fin x => if Rltb x 0 then NaN else Fin (R_sqrt.sqrt x)
  | PInf => PInf
  | NInf | NaN => NaN
  end.

(** [np.abs] *)
Definition abs (a : float64) : float64 :=
  match a with
  | Fin x => Fin (Rabs x)
  | PInf | NInf => PInf
  | NaN => NaN
  end.

(** [a < b]: false as soon as one side is [nan]. *)
Definition ltb (a b : float64) : bool :=
  match a, b with
  | NaN, _ | _, NaN => false
  | Fin x, Fin y => Rltb x y
  | NInf, (Fin _ | PInf) => true
  | Fin _, PInf => true
  | _, _ => false
  end.

(** [a <= b] *)
Definition leb (a b : float64) : bool :=
  match a, b with
  | NaN, _ | _, NaN => false
  | Fin x, Fin y => Rleb x y
  | NInf, _ | _, PInf => true
  | _, _ => false
  end.

(** [a == b] *)
Definition eqb (a b : float64) : bool :=
  match a, b with
  | Fin x, Fin y => Reqb x y
  | PInf, PInf | NInf, NInf => true
  | _, _ => false
  end.

(** [a > b] is [b < a]. *)
Definition gtb (a b : float64) : bool := ltb b a.

(** [a >= b] is [b <= a]. *)
Definition geb (a b : float64) : bool := leb b a.

(** [np.log10]: [-inf] at zero, [nan] below it. *)
Definition log10 (a : float64) : float64 :=
  match a with
  | Fin x => if Rltb x 0 then NaN else if Reqb x 0 then NInf else Fin (ln x / ln 10)
  | PInf => PInf
  | NInf | NaN => NaN
  end.

End Float64.
Export Float64.

(** ** NumPy reductions over one-dimensional arrays

    NumPy and SciPy are not part of the repository; the functions the
    scripts call are modelled from the libraries' documentation.  On finite
    values the reductions are the exact sums and quotients; NumPy rounds at
    every step. *)
Module Numpy.

Definition ndarray : Type := list float64.

(** [np.array(xs)] of a list of Python floats. *)
Definition array (xs : list R) : ndarray := map Fin xs.

(** [np.sum] *)
Definition sum (a : ndarray) : float64 := fold_left add a (Fin 0).

(** [np.mean(a)]: the sum over the number of items; [nan] (with a
    warning) for an empty array. *)
Definition mean (a : ndarray) : float64 :=
  div (sum a) (Fin (IZR (Py.len a))).

(** [np.var(a, ddof=ddof)]: the squared deviations from the mean, summed
    and divided by [max(n - ddof, 0)]. *)
Definition var (a : ndarray) (ddof : Z) : float64 :=
  let arrmean := mean a in
  let x := map (fun v => mul (sub v arrmean) (sub v arrmean)) a in
  div (sum x) (Fin (IZR (Z.max (Py.len a - ddof) 0))).

(** [np.std(a, ddof=ddof)] *)
Definition std (a : ndarray) (ddof : Z) : float64 := sqrt (var a ddof).

End Numpy.

(** ** SciPy: [scipy.stats] as the scripts call it *)
Module Scipy.
Import Numpy.

(** Student's t distribution.  [t_sf x df] is the survival function
    [stats.t.sf(x, df)] and [t_ppf q df] the quantile function of the
    standard distribution ([0 < q < 1], [0 < df]).  Neither has a closed
    form; the development is parametric in them. *)
Class StudentT : Type := {
  t_sf : float64 -> float64 -> float64;
  t_ppf : R -> R -> R
}.

(** [stats.sem(a)]: the standard error of the mean, [std(a, ddof=1) / sqrt(n)]. *)
Definition sem (a : ndarray) : float64 :=
  div (std a 1) (sqrt (Fin (IZR (Py.len a)))).

(** [stats.t.ppf(q, df, loc, scale)]: [nan] unless [df > 0], [scale > 0]
    and [loc == loc]. *)
Definition t_dist_ppf `{StudentT} (q df : R) (loc scale : float64) : float64 :=
  if Rltb 0 df && ltb (Fin 0) scale && eqb loc loc then
    if Rltb 0 q && Rltb q 1 then add (mul (Fin (t_ppf q df)) scale) loc
    else if Reqb q 0 then NInf
    else if Reqb q 1 then PInf
    else NaN
  else NaN.

(** [stats.t.interval(confidence, df, loc=loc, scale=scale)] *)
Definition t_interval `{StudentT} (confidence df : R) (loc scale : float64)
  : Py.result (float64 * float64) :=
  if Rltb 1 confidence || Rltb confidence 0 then Py.Raise Py.ValueError
  else
    let q1 := (1 - confidence) / 2 in
    let q2 := (1 + confidence) / 2 in
    Py.Ok (t_dist_ppf q1 df loc scale, t_dist_ppf q2 df loc scale).

(** Student's pooled-variance denominator and degrees of freedom. *)
Definition equal_var_ttest_denom (v1 : float64) (n1 : Z) (v2 : float64) (n2 : Z)
  : float64 * float64 :=
  let df := Fin (IZR (n1 + n2 - 2)) in
  let svar := div (add (mul (Fin (IZR (n1 - 1))) v1) (mul (Fin (IZR (n2 - 1))) v2)) df in
  let denom := sqrt (mul svar (add (div (Fin 1) (Fin (IZR n1))) (div (Fin 1) (Fin (IZR n2))))) in
  (df, denom).

(** Welch's denominator and Welch-Satterthwaite degrees of freedom. *)
Definition unequal_var_ttest_denom (v1 : float64) (n1 : Z) (v2 : float64) (n2 : Z)
  : float64 * float64 :=
  let vn1 := div v1 (Fin (IZR n1)) in
  let vn2 := div v2 (Fin (IZR n2)) in
  let df := div (mul (add vn1 vn2) (add vn1 vn2))
                (add (div (mul vn1 vn1) (Fin (IZR (n1 - 1))))
                     (div (mul vn2 vn2) (Fin (IZR (n2 - 1))))) in
  let df := match df with NaN => Fin 1 | _ => df end in
  let denom := sqrt (add vn1 vn2) in
  (df, denom).

(** The statistic and its two-sided p-value, [2 * sf(|t|, df)]. *)
Definition ttest_ind_from_stats `{StudentT} (mean1 mean2 denom df : float64)
  : float64 * float64 :=
  let d := sub mean1 mean2 in
  let t := div d denom in
  (t, mul (Fin 2) (t_sf (abs t) df)).

(** [stats.ttest_ind(a, b, equal_var=equal_var)]; an empty sample gives
    [(nan, nan)]. *)
Definition ttest_ind `{StudentT} (a b : ndarray) (equal_var : bool)
  : float64 * float64 :=
  if (Py.len a =? 0)%Z || (Py.len b =? 0)%Z then (NaN, NaN)
  else
    let n1 := Py.len a in
    let n2 := Py.len b in
    let v1 := var a 1 in
    let v2 := var b 1 in
    let '(df, denom) :=
      if equal_var then equal_var_ttest_denom v1 n1 v2 n2
      else unequal_var_ttest_denom v1 n1 v2 n2 in
    ttest_ind_from_stats (mean a) (mean b) denom df.

End Scipy.

(** ** scripts/generate_statistical_analysis.py *)
Module generate_statistical_analysis.
Import Py Numpy Scipy.

(** The dict [perform_hypothesis_test] returns. *)
Record StatResult : Type := mkStatResult {
  baseline_mean : float64;
  optimized_mean : float64;
  improvement_ratio : float64;
  p_value : float64;
  cohens_d : float64;
  baseline_ci : float64 * float64;
  optimized_ci : float64 * float64;
  is_significant : bool;
  t_statistic : float64
}.

(** Calculate Cohen's d effect size. *)
Definition calculate_effect_size (baseline_mean optimized_mean pooled_std : float64)
  : float64 :=
  div (sub baseline_mean optimized_mean) pooled_std.

(** The [pooled_std] expression of [perform_hypothesis_test]. *)
Definition pooled_std (baseline_times optimized_times : ndarray) : float64 :=
  sqrt (div (add (mul (Fin (IZR (len baseline_times - 1))) (var baseline_times 1))
                 (mul (Fin (IZR (len optimized_times - 1))) (var optimized_times 1)))
            (Fin (IZR (len baseline_times + len optimized_times - 2)))).

(** The default of the parameter [alpha]. *)
Definition alpha_default : R := 0.05.

Definition perform_hypothesis_test `{StudentT}
  (baseline_times optimized_times : ndarray) (alpha : R) : result StatResult :=
  (* Basic statistics *)
  let baseline_mean := mean baseline_times in
  let optimized_mean := mean optimized_times in
  let improvement_ratio := div baseline_mean optimized_mean in
  (* Two-sample t-test for statistical significance *)
  let '(t_stat, p_value) := ttest_ind baseline_times optimized_times true in
  (* Effect size (Cohen's d) *)
  let pooled_std := pooled_std baseline_times optimized_times in
  let cohens_d := calculate_effect_size baseline_mean optimized_mean pooled_std in
  (* Confidence intervals *)
  baseline_ci <- t_interval 0.95 (IZR (len baseline_times - 1))
                            baseline_mean (sem baseline_times) ;;
  optimized_ci <- t_interval 0.95 (IZR (len optimized_times - 1))
                             optimized_mean (sem optimized_times) ;;
  (* Statistical significance determination *)
  let is_significant := ltb p_value (Fin alpha) && gtb cohens_d (Fin 0.8) in
  ret {| baseline_mean := baseline_mean;
         optimized_mean := optimized_mean;
         improvement_ratio := improvement_ratio;
         p_value := p_value;
         cohens_d := cohens_d;
         baseline_ci := baseline_ci;
         optimized_ci := optimized_ci;
         is_significant := is_significant;
         t_statistic := t_stat |}.

(** One entry of [benchmark_data]: the two lists of timings. *)
Record Samples : Type := mkSamples {
  baseline : list R;
  optimized : list R
}.

(** The loop of [analyze_memory_workload_results] over a table of samples. *)
Definition analyze `{StudentT} (benchmark_data : dict Samples)
  : result (dict StatResult) :=
  for_each
    (fun results item =>
       let '(benchmark_name, data) := item in
       let baseline_times := array (baseline data) in
       let optimized_times := array (optimized data) in
       stats_result <- perform_hypothesis_test baseline_times optimized_times alpha_default ;;
       ret (setitem results benchmark_name stats_result))
    benchmark_data [].

(** The table in the source. *)
Definition benchmark_data : dict Samples := [
  ("collection_pipeline"%string,
   {| baseline := [70.1; 69.8; 70.5; 69.9; 70.3; 70.0; 69.7; 70.2; 70.4; 69.6];
      optimized := [21.4; 21.2; 21.6; 21.3; 21.5; 21.1; 21.7; 21.0; 21.8; 21.9] |});
  ("string_building"%string,
   {| baseline := [7.25; 7.20; 7.30; 7.22; 7.28; 7.24; 7.26; 7.21; 7.29; 7.27];
      optimized := [3.25; 3.22; 3.28; 3.24; 3.26; 3.23; 3.27; 3.21; 3.29; 3.20] |});
  ("vector_operations"%string,
   {| baseline := [2.00; 1.98; 2.02; 1.99; 2.01; 2.03; 1.97; 2.04; 1.96; 2.05];
      optimized := [0.70; 0.69; 0.71; 0.68; 0.72; 0.67; 0.73; 0.66; 0.74; 0.65] |});
  ("hashmap_operations"%string,
   {| baseline := [1025; 1020; 1030; 1022; 1028; 1024; 1026; 1021; 1029; 1027];
      optimized := [380; 378; 382; 379; 381; 377; 383; 376; 384; 375] |});
  ("text_processing"%string,
   {| baseline := [190; 188; 192; 189; 191; 187; 193; 186; 194; 185];
      optimized := [62.5; 61.8; 63.2; 62.1; 62.9; 61.5; 63.5; 61.2; 63.8; 60.9] |})
].

Definition analyze_memory_workload_results `{StudentT} : result (dict StatResult) :=
  analyze benchmark_data.

(** The decision paragraph appended to the report. *)
Inductive Decision : Type :=
| REJECT_NULL_HYPOTHESIS
| FAIL_TO_REJECT_NULL_HYPOTHESIS.

(** What [generate_statistical_report] computes and renders into the text. *)
Record Report : Type := mkReport {
  total_count : Z;
  significant_count : Z;
  success_rate : R;
  average_improvement : float64;
  average_effect_size : float64;
  decision : Decision
}.

Definition generate_statistical_report (results : dict StatResult) : result Report :=
  let significant_count := 0%Z in
  let total_count := len results in
  let significant_count :=
    fold_left
      (fun significant_count item =>
         let '(benchmark_name, stats) := item in
         if is_significant stats then (significant_count + 1)%Z else significant_count)
      results significant_count in
  (* Hypothesis test conclusion *)
  rate <- truediv (IZR significant_count) (IZR total_count) ;;
  let success_rate := rate * 100 in
  let average_improvement := mean (map (fun item => improvement_ratio (snd item)) results) in
  let average_effect_size := mean (map (fun item => cohens_d (snd item)) results) in
  let decision :=
    if (significant_count >=? 3)%Z (* Our success criteria *)
    then REJECT_NULL_HYPOTHESIS
    else FAIL_TO_REJECT_NULL_HYPOTHESIS in
  ret {| total_count := total_count;
         significant_count := significant_count;
         success_rate := success_rate;
         average_improvement := average_improvement;
         average_effect_size := average_effect_size;
         decision := decision |}.

(** The bar colours of the charts. *)
Inductive Color : Type :=
| green
| orange
| red.

(** What [generate_performance_charts] draws: the heights and colours of
    the bars of its four panels and the dashed threshold lines.  The calls
    into matplotlib, and the file it saves, are not modelled. *)
Record Charts : Type := mkCharts {
  benchmarks : list string;
  (* 1. Performance improvement ratios *)
  improvements : list float64;
  ax1_colors : list Color;
  ax1_axhline : float64;
  (* 2. Statistical significance (p-values) *)
  p_values : list float64;
  log_p_values : list float64;
  ax2_colors : list Color;
  ax2_axhline : float64;
  (* 3. Effect sizes (Cohen's d) *)
  effect_sizes : list float64;
  ax3_colors : list Color;
  ax3_axhline : float64;
  (* 4. Execution time comparison *)
  baseline_times : list float64;
  optimized_times : list float64
}.

Definition generate_performance_charts (results : dict StatResult) : Charts :=
  let benchmarks := keys results in
  let improvements := map (fun item => improvement_ratio (snd item)) results in
  let ax1_colors :=
    map (fun imp => if geb imp (Fin 2.0) then green
                    else if geb imp (Fin 1.5) then orange else red) improvements in
  let p_values := map (fun item => p_value (snd item)) results in
  let log_p_values := map (fun p => opp (log10 p)) p_values in
  let ax2_colors :=
    map (fun p => if ltb p (Fin 0.05) then green else red) p_values in
  let effect_sizes := map (fun item => cohens_d (snd item)) results in
  let ax3_colors :=
    map (fun d => if gtb d (Fin 0.8) then green
                  else if gtb d (Fin 0.5) then orange else red) effect_sizes in
  {| benchmarks := benchmarks;
     improvements := improvements;
     ax1_colors := ax1_colors;
     ax1_axhline := Fin 2.0;
     p_values := p_values;
     log_p_values := log_p_values;
     ax2_colors := ax2_colors;
     ax2_axhline := opp (log10 (Fin 0.05));
     effect_sizes := effect_sizes;
     ax3_colors := ax3_colors;
     ax3_axhline := Fin 0.8;
     baseline_times := map (fun item => baseline_mean (snd item)) results;
     optimized_times := map (fun item => optimized_mean (snd item)) results |}.

(** The last line [main] prints. *)
Inductive Verdict : Type :=
| NULL_HYPOTHESIS_REJECTED
| NEED_MORE_CATEGORIES.

(** What [main] produces: the charts, the report, and the key results it
    prints.  Writing the report to its file is not modelled. *)
Record MainOutput : Type := mkMainOutput {
  charts : Charts;
  report : Report;
  key_significant_count : Z;
  key_total_count : Z;
  key_average_improvement : float64;
  key_success_rate : R;
  verdict : Verdict
}.

(** [main] on a given table of samples. *)
Definition main_on `{StudentT} (benchmark_data : dict Samples) : result MainOutput :=
  (* Analyze results *)
  results <- analyze benchmark_data ;;
  (* Generate visualizations *)
  let charts := generate_performance_charts results in
  (* Generate statistical report *)
  report <- generate_statistical_report results ;;
  (* Print summary *)
  let significant_count :=
    fold_left Z.add
      (map (fun _ => 1%Z) (filter (fun stats => is_significant stats) (map snd results)))
      0%Z in
  let total_count := len results in
  let average := mean (map (fun stats => improvement_ratio stats) (map snd results)) in
  rate <- truediv (IZR significant_count) (IZR total_count) ;;
  let verdict :=
    if (significant_count >=? 3)%Z then NULL_HYPOTHESIS_REJECTED
    else NEED_MORE_CATEGORIES in
  ret {| charts := charts;
         report := report;
         key_significant_count := significant_count;
         key_total_count := total_count;
         key_average_improvement := average;
         key_success_rate := rate * 100;
         verdict := verdict |}.

Definition main `{StudentT} : result MainOutput := main_on benchmark_data.

End generate_statistical_analysis.

(** ** scripts/analyze_sample_results.py *)
Module analyze_sample_results.
Import Py.

(** The status printed beside a benchmark. *)
Inductive Status : Type :=
| SIGNIFICANT
| GOOD
| MODEST
| REGRESSION.

(** The paragraph printed under HYPOTHESIS TEST PREVIEW. *)
Inductive Preview : Type :=
| NULL_HYPOTHESIS_LIKELY_TO_BE_REJECTED
| INSUFFICIENT_EVIDENCE_TO_REJECT_NULL_HYPOTHESIS.

(** The variables the loop updates, and the lines it prints. *)
Record LoopState : Type := mkLoopState {
  improvements : list (string * R);
  significant_improvements : Z;
  printed : list (string * R * Status)
}.

(** The [if]/[elif] chain of the loop: the counter after it, and the status. *)
Definition classify (improvement_ratio : R) (significant_improvements : Z)
  : Z * Status :=
  if Rgeb improvement_ratio 2.0 then ((significant_improvements + 1)%Z, SIGNIFICANT)
  else if Rgeb improvement_ratio 1.5 then (significant_improvements, GOOD)
  else if Rgeb improvement_ratio 1.1 then (significant_improvements, MODEST)
  else (significant_improvements, REGRESSION).

(** The body of [for benchmark in baseline_results]. *)
Definition loop_body (optimized_results : dict R) (st : LoopState)
  (item : string * R) : result LoopState :=
  let '(benchmark, baseline_time) := item in
  optimized_time <- getitem optimized_results benchmark ;;
  improvement_ratio <- truediv baseline_time optimized_time ;;
  let improvements := improvements st ++ [(benchmark, improvement_ratio)] in
  let '(significant_improvements, status) :=
    classify improvement_ratio (significant_improvements st) in
  ret {| improvements := improvements;
         significant_improvements := significant_improvements;
         printed := printed st ++ [(benchmark, improvement_ratio, status)] |}.

(** What the script prints, as values. *)
Record Summary : Type := mkSummary {
  lines : list (string * R * Status);
  total_benchmarks : Z;
  significant : Z;
  success_rate : R;
  avg_improvement : R;
  max_improvement : R;
  min_improvement : R;
  preview : Preview
}.

(** The function on given tables of timings. *)
Definition analyze (baseline_results optimized_results : dict R) : result Summary :=
  st <- for_each (loop_body optimized_results) baseline_results
          {| improvements := []; significant_improvements := 0; printed := [] |} ;;
  let improvements := improvements st in
  let significant_improvements := significant_improvements st in
  (* SUMMARY STATISTICS *)
  rate <- truediv (IZR significant_improvements) (IZR (len improvements)) ;;
  (* Calculate overall statistics *)
  let improvement_ratios := map snd improvements in
  avg_improvement <- truediv (sum improvement_ratios) (IZR (len improvement_ratios)) ;;
  max_improvement <- max improvement_ratios ;;
  min_improvement <- min improvement_ratios ;;
  (* HYPOTHESIS TEST PREVIEW *)
  let preview :=
    if (significant_improvements >=? 3)%Z
    then NULL_HYPOTHESIS_LIKELY_TO_BE_REJECTED
    else INSUFFICIENT_EVIDENCE_TO_REJECT_NULL_HYPOTHESIS in
  ret {| lines := printed st;
         total_benchmarks := len improvements;
         significant := significant_improvements;
         success_rate := rate * 100;
         avg_improvement := avg_improvement;
         max_improvement := max_improvement;
         min_improvement := min_improvement;
         preview := preview |}.

(** Results from the sample benchmark runs (in milliseconds). *)
Definition baseline_results : dict R := [
  ("collection_pipeline"%string, 70.102);
  ("string_building"%string, 7.2465);
  ("vector_operations"%string, 2.0042);
  ("hashmap_operations"%string, 1025.1);
  ("nested_structures"%string, 659.10);
  ("recursive_processing"%string, 29.403);
  ("large_objects"%string, 461.25);
  ("streaming_simulation"%string, 3.5329);
  ("text_processing"%string, 190.05)
].

Definition optimized_results : dict R := [
  ("collection_pipeline"%string, 21.377);
  ("string_building"%string, 3.2477);
  ("vector_operations"%string, 0.70256);
  ("hashmap_operations"%string, 379.75);
  ("nested_structures"%string, 473.63);
  ("recursive_processing"%string, 34.084);
  ("large_objects"%string, 244.83);
  ("streaming_simulation"%string, 4.0713);
  ("text_processing"%string, 62.498)
].

Definition analyze_memory_workload_results : result Summary :=
  analyze baseline_results optimized_results.

End analyze_sample_results.

(** ** The statistics of the specification, over the reals

    These follow the specification's formulas, not the code; the theorems
    below compare the code with them. *)
Module Statistics.

(** Number of samples. *)
Definition size (xs : list R) : R := INR (List.length xs).

(** Arithmetic mean. *)
Definition sample_mean (xs : list R) : R := Py.sum xs / size xs.

(** Sum of the squared deviations from the mean. *)
Definition sum_sq_dev (xs : list R) : R :=
  Py.sum (map (fun x => (x - sample_mean xs) * (x - sample_mean xs)) xs).

(** Unbiased sample variance (divisor [n - 1]). *)
Definition sample_variance (xs : list R) : R := sum_sq_dev xs / (size xs - 1).

(** Pooled variance and pooled standard deviation,
    [sqrt(((n1-1)*var1 + (n2-1)*var2) / (n1+n2-2))]. *)
Definition pooled_variance (xs ys : list R) : R :=
  ((size xs - 1) * sample_variance xs + (size ys - 1) * sample_variance ys)
  / (size xs + size ys - 2).

Definition pooled_std (xs ys : list R) : R := R_sqrt.sqrt (pooled_variance xs ys).

(** Cohen's d, [(mean1 - mean2) / pooled_std]. *)
Definition cohens_d (xs ys : list R) : R :=
  (sample_mean xs - sample_mean ys) / pooled_std xs ys.


(** Student's two-sample statistic (equal variances assumed) and its
    degrees of freedom. *)
Definition student_t (xs ys : list R) : R :=
  (sample_mean xs - sample_mean ys)
  / R_sqrt.sqrt (pooled_variance xs ys * (1 / size xs + 1 / size ys)).

Definition student_df (xs ys : list R) : R := size xs + size ys - 2.

(** Welch's statistic (unequal variances). *)
Definition welch_t (xs ys : list R) : R :=
  (sample_mean xs - sample_mean ys)
  / R_sqrt.sqrt (sample_variance xs / size xs + sample_variance ys / size ys).


End Statistics.

(** ** The count of significant categories (specification side) *)
Module Count.

(** Categories of the hypothesis tester whose result is significant. *)
Definition significant_results
  (results : Py.dict generate_statistical_analysis.StatResult) : Z :=
  Py.len (filter (fun item => generate_statistical_analysis.is_significant (snd item))
                 results).

Definition is_SIGNIFICANT (s : analyze_sample_results.Status) : bool :=
  match s with
  | analyze_sample_results.SIGNIFICANT => true
  | _ => false
  end.

(** Printed lines of the ratio summarizer in the "significant" band. *)
Definition significant_lines
  (lines : list (string * R * analyze_sample_results.Status)) : Z :=
  Py.len (filter (fun line => is_SIGNIFICANT (snd line)) lines).

(** A result of which only the verdict matters, and the scenario of the
    specification: nine categories, two of them significant. *)
Definition verdict (significant : bool) : generate_statistical_analysis.StatResult :=
  {| generate_statistical_analysis.baseline_mean := Fin 2;
     generate_statistical_analysis.optimized_mean := Fin 1;
     generate_statistical_analysis.improvement_ratio := Fin 2;
     generate_statistical_analysis.p_value := Fin 0.01;
     generate_statistical_analysis.cohens_d := Fin 1;
     generate_statistical_analysis.baseline_ci := (Fin 1.5, Fin 2.5);
     generate_statistical_analysis.optimized_ci := (Fin 0.5, Fin 1.5);
     generate_statistical_analysis.is_significant := significant;
     generate_statistical_analysis.t_statistic := Fin 3 |}.

Definition nine_categories_two_significant
  : Py.dict generate_statistical_analysis.StatResult :=
  [("c1"%string, verdict true); ("c2"%string, verdict false);
   ("c3"%string, verdict false); ("c4"%string, verdict true);
   ("c5"%string, verdict false); ("c6"%string, verdict false);
   ("c7"%string, verdict false); ("c8"%string, verdict false);
   ("c9"%string, verdict false)].

End Count.

(** ** The lines of the ratio summarizer (specification side) *)
Module Lines.

(** The optimized timing stored for a benchmark (0 when there is none). *)
Definition optimized_time_of (optimized_results : Py.dict R) (benchmark : string) : R :=
  match Py.getitem optimized_results benchmark with
  | Py.Ok t => t
  | Py.Raise _ => 0
  end.

(** The ratio of a baseline entry, and the line expected for it: the name,
    the ratio and the band of the ratio. *)
Definition ratio_of (optimized_results : Py.dict R) (item : string * R) : R :=
  snd item / optimized_time_of optimized_results (fst item).

Definition line_of (optimized_results : Py.dict R) (item : string * R)
  : string * R * analyze_sample_results.Status :=
  (fst item, ratio_of optimized_results item,
   snd (analyze_sample_results.classify (ratio_of optimized_results item) 0)).

End Lines.

(** ** Reading the charts (specification side) *)
Module Panels.

Definition is_green (c : generate_statistical_analysis.Color) : bool :=
  match c with
  | generate_statistical_analysis.green => true
  | _ => false
  end.

End Panels.

(** ** An instance of Student's t distribution

    With one degree of freedom the distribution is the Cauchy distribution,
    whose survival and quantile functions have closed forms.  The instance
    uses them whatever [df] is, so it is the t distribution only at
    [df = 1] (two samples per group); it serves to run the theorems on
    concrete data. *)
Module Cauchy.
Import Scipy.

Definition sf (x df : float64) : float64 :=
  match x with
  | Fin x => Fin (1 / 2 - atan x / PI)
  | PInf => Fin 0
  | NInf => Fin 1
  | NaN => NaN
  end.

Definition ppf (q df : R) : R := tan (PI * (q - 1 / 2)).

#[export] Instance student_t_one_df : StudentT := {| t_sf := sf; t_ppf := ppf |}.

End Cauchy.

(** * Properties *)

Import Py Numpy Scipy.

(** ** Comparisons *)

Lemma Rltb_true (x y : R) : Rltb x y = true <-> x < y.
Proof. unfold Rltb; destruct (Rlt_dec x y); split; intros; try lra; congruence. Qed.

Lemma Rltb_false (x y : R) : Rltb x y = false <-> y <= x.
Proof. unfold Rltb; destruct (Rlt_dec x y); split; intros; try lra; congruence. Qed.

Lemma Rleb_true (x y : R) : Rleb x y = true <-> x <= y.
Proof. unfold Rleb; destruct (Rle_dec x y); split; intros; try lra; congruence. Qed.

Lemma Rleb_false (x y : R) : Rleb x y = false <-> y < x.
Proof. unfold Rleb; destruct (Rle_dec x y); split; intros; try lra; congruence. Qed.

Lemma Reqb_true (x y : R) : Reqb x y = true <-> x = y.
Proof. unfold Reqb; destruct (Req_dec_T x y); split; intros; try lra; congruence. Qed.

Lemma Reqb_false (x y : R) : Reqb x y = false <-> x <> y.
Proof. unfold Reqb; destruct (Req_dec_T x y); split; intros; try lra; congruence. Qed.

(** ** Python built-ins *)

Lemma truediv_nonzero (x y : R) : y <> 0 -> truediv x y = Ok (x / y).
Proof. intros Hy; unfold truediv; apply Reqb_false in Hy; now rewrite Hy. Qed.

Lemma truediv_zero (x : R) : truediv x 0 = Raise ZeroDivisionError.
Proof. unfold truediv; replace (Reqb 0 0) with true by (symmetry; now apply Reqb_true); reflexivity. Qed.

Lemma IZR_len {A} (xs : list A) : IZR (len xs) = INR (List.length xs).
Proof. unfold len; now rewrite <- INR_IZR_INZ. Qed.

Lemma IZR_len_nonzero {A} (xs : list A) : xs <> [] -> IZR (len xs) <> 0.
Proof.
  destruct xs as [|x xs]; [congruence|intros _].
  rewrite IZR_len; apply not_0_INR; simpl; lia.
Qed.

Lemma getitem_setitem {V} (d : dict V) (k k' : string) (v : V) :
  getitem (setitem d k v) k' = if String.eqb k' k then Ok v else getitem d k'.
Proof.
  induction d as [|[k0 v0] d IH]; simpl.
  - destruct (String.eqb k' k); reflexivity.
  - destruct (String.eqb_spec k k0) as [->|Hk]; simpl.
    + destruct (String.eqb k' k0); reflexivity.
    + destruct (String.eqb_spec k' k0) as [->|Hk'].
      * destruct (String.eqb_spec k0 k); [congruence|reflexivity].
      * apply IH.
Qed.

(** ** Arithmetic of [np.float64] *)

Lemma add_NaN_r (a : float64) : add a NaN = NaN.
Proof. now destruct a. Qed.

Lemma mul_NaN_r (a : float64) : mul a NaN = NaN.
Proof. now destruct a. Qed.

Lemma div_NaN_r (a : float64) : div a NaN = NaN.
Proof. now destruct a. Qed.

Lemma sub_NaN_r (a : float64) : sub a NaN = NaN.
Proof. now destruct a. Qed.

Lemma leb_gtb_false (a b : float64) : leb a b = true -> gtb a b = false.
Proof.
  unfold gtb; destruct a, b; simpl; try reflexivity; try discriminate.
  intros E; apply Rleb_true in E; apply Rltb_false; assumption.
Qed.

Lemma div_Fin_nonzero (x y : R) : y <> 0 -> div (Fin x) (Fin y) = Fin (x / y).
Proof. intros Hy; simpl; apply Reqb_false in Hy; now rewrite Hy. Qed.

Lemma div_Fin_zero (x : R) : div (Fin x) (Fin 0) = signed_inf x.
Proof. simpl; replace (Reqb 0 0) with true by (symmetry; now apply Reqb_true); reflexivity. Qed.

(** ** NumPy on arrays of finite values *)

Lemma len_array (xs : list R) : len (array xs) = len xs.
Proof. unfold len, array; now rewrite length_map. Qed.

Lemma len_nonzero (xs : list R) :
  (2 <= List.length xs)%nat -> (len (array xs) =? 0)%Z = false.
Proof. intros Hx; rewrite len_array; apply Z.eqb_neq; unfold len; lia. Qed.

Lemma size_pos (xs : list R) : xs <> [] -> 0 < Statistics.size xs.
Proof.
  destruct xs as [|x xs]; [congruence|intros _].
  unfold Statistics.size; apply lt_0_INR; simpl; lia.
Qed.

Lemma size_ge_2 (xs : list R) : (2 <= List.length xs)%nat -> 2 <= Statistics.size xs.
Proof. intros H; unfold Statistics.size; apply le_INR in H; simpl in H; lra. Qed.

Lemma fold_add_Fin (xs : list R) (a : R) :
  fold_left add (map Fin xs) (Fin a) = Fin (fold_left Rplus xs a).
Proof. revert a; induction xs as [|x xs IH]; intros a; simpl; [reflexivity|apply IH]. Qed.

Lemma sum_array (xs : list R) : Numpy.sum (array xs) = Fin (Py.sum xs).
Proof. apply fold_add_Fin. Qed.

Lemma mean_array (xs : list R) :
  xs <> [] -> mean (array xs) = Fin (Statistics.sample_mean xs).
Proof.
  intros Hne; pose proof (size_pos xs Hne) as Hpos.
  unfold mean; rewrite sum_array, len_array, IZR_len; simpl.
  unfold Statistics.sample_mean, Statistics.size in *; cmp.
Qed.

Lemma mean_nil : mean [] = NaN.
Proof. unfold mean, Numpy.sum, len; simpl; unfold signed_inf; cmp. Qed.

Lemma var_array (xs : list R) :
  (2 <= List.length xs)%nat ->
  var (array xs) 1 = Fin (Statistics.sample_variance xs).
Proof.
  intros Hlen; pose proof (size_ge_2 xs Hlen) as Hsz.
  assert (Hne : xs <> []) by (destruct xs; simpl in Hlen; [lia|congruence]).
  unfold var; rewrite mean_array by assumption.
  unfold array at 1; rewrite map_map.
  replace (map _ xs) with
    (map Fin (map (fun x => (x - Statistics.sample_mean xs) * (x - Statistics.sample_mean xs)) xs))
    by (rewrite map_map; reflexivity).
  fold (array (map (fun x => (x - Statistics.sample_mean xs) * (x - Statistics.sample_mean xs)) xs)).
  rewrite sum_array, len_array.
  replace (Z.max (len xs - 1) 0) with (len xs - 1)%Z by (unfold len; lia).
  rewrite minus_IZR, IZR_len; simpl.
  unfold Statistics.sample_variance, Statistics.sum_sq_dev, Statistics.size in *; cmp.
Qed.

(** The unbiased variance of a single observation is [nan]: [0 / 0], or a
    [nan] deviation when the observation is not finite. *)
Lemma var_singleton (v : float64) : var [v] 1 = NaN.
Proof.
  unfold var; change (Z.max (len [v] - 1) 0) with 0%Z.
  unfold mean, Numpy.sum; change (IZR (len [v])) with 1.
  destruct v as [x| | |]; simpl; cmp; simpl; unfold signed_inf; cmp.
Qed.

(** ** The statistics of the specification *)

Lemma fold_plus_nonneg (f : R -> R) (xs : list R) (a : R) :
  0 <= a -> 0 <= fold_left Rplus (map (fun x => f x * f x) xs) a.
Proof.
  revert a; induction xs as [|x xs IH]; intros a Ha; simpl; [assumption|].
  apply IH; nra.
Qed.

Lemma sum_sq_dev_nonneg (xs : list R) : 0 <= Statistics.sum_sq_dev xs.
Proof. unfold Statistics.sum_sq_dev, Py.sum; apply fold_plus_nonneg; lra. Qed.

Lemma sample_variance_nonneg (xs : list R) :
  (2 <= List.length xs)%nat -> 0 <= Statistics.sample_variance xs.
Proof.
  intros Hlen; pose proof (size_ge_2 xs Hlen); pose proof (sum_sq_dev_nonneg xs).
  unfold Statistics.sample_variance; apply Rmult_le_pos; [assumption|].
  left; apply Rinv_0_lt_compat; lra.
Qed.

Lemma pooled_variance_nonneg (xs ys : list R) :
  (2 <= List.length xs)%nat -> (2 <= List.length ys)%nat ->
  0 <= Statistics.pooled_variance xs ys.
Proof.
  intros Hx Hy.
  pose proof (size_ge_2 xs Hx); pose proof (size_ge_2 ys Hy).
  pose proof (sample_variance_nonneg xs Hx); pose proof (sample_variance_nonneg ys Hy).
  unfold Statistics.pooled_variance; apply Rmult_le_pos.
  - apply Rplus_le_le_0_compat; apply Rmult_le_pos; lra.
  - left; apply Rinv_0_lt_compat; lra.
Qed.

Lemma pooled_std_nonneg (xs ys : list R) : 0 <= Statistics.pooled_std xs ys.
Proof. apply sqrt_pos. Qed.

(** A group of at least two samples whose variance is zero contributes
    nothing to the pooled variance. *)
Lemma pooled_std_zero_variance (xs ys : list R) :
  Statistics.sample_variance xs = 0 -> Statistics.sample_variance ys = 0 ->
  Statistics.pooled_std xs ys = 0.
Proof.
  intros Hx Hy; unfold Statistics.pooled_std, Statistics.pooled_variance.
  rewrite Hx, Hy, !Rmult_0_r, Rplus_0_r; unfold Rdiv; rewrite Rmult_0_l; apply sqrt_0.
Qed.





Lemma sample_variance_constant_pair (x : R) : Statistics.sample_variance [x; x] = 0.
Proof.
  unfold Statistics.sample_variance, Statistics.sum_sq_dev, Statistics.sample_mean,
    Statistics.size, Py.sum; simpl; lra.
Qed.

(** ** The hypothesis tester *)

Import generate_statistical_analysis.

Lemma t_interval_95 `{StudentT} (df : R) (loc scale : float64) :
  t_interval 0.95 df loc scale
  = Ok (t_dist_ppf ((1 - 0.95) / 2) df loc scale,
        t_dist_ppf ((1 + 0.95) / 2) df loc scale).
Proof.
  unfold t_interval.
  replace (Rltb 1 0.95) with false by (symmetry; apply Rltb_false; lra).
  replace (Rltb 0.95 0) with false by (symmetry; apply Rltb_false; lra).
  reflexivity.
Qed.

(** The function raises nothing: it returns this record on every input. *)
Lemma perform_hypothesis_test_returns `{StudentT} (a b : ndarray) (alpha : R) :
  perform_hypothesis_test a b alpha
  = Ok {| baseline_mean := mean a;
          optimized_mean := mean b;
          improvement_ratio := div (mean a) (mean b);
          p_value := snd (ttest_ind a b true);
          cohens_d := calculate_effect_size (mean a) (mean b) (pooled_std a b);
          baseline_ci :=
            (t_dist_ppf ((1 - 0.95) / 2) (IZR (len a - 1)) (mean a) (sem a),
             t_dist_ppf ((1 + 0.95) / 2) (IZR (len a - 1)) (mean a) (sem a));
          optimized_ci :=
            (t_dist_ppf ((1 - 0.95) / 2) (IZR (len b - 1)) (mean b) (sem b),
             t_dist_ppf ((1 + 0.95) / 2) (IZR (len b - 1)) (mean b) (sem b));
          is_significant :=
            ltb (snd (ttest_ind a b true)) (Fin alpha)
            && gtb (calculate_effect_size (mean a) (mean b) (pooled_std a b)) (Fin 0.8);
          t_statistic := fst (ttest_ind a b true) |}.
Proof.
  unfold perform_hypothesis_test.
  destruct (ttest_ind a b true) as [t p]; rewrite !t_interval_95; reflexivity.
Qed.

(** On two groups of at least two finite samples the code's pooled standard
    deviation is the specification's. *)
Lemma pooled_std_array (xs ys : list R) :
  (2 <= List.length xs)%nat -> (2 <= List.length ys)%nat ->
  generate_statistical_analysis.pooled_std (array xs) (array ys)
  = Fin (Statistics.pooled_std xs ys).
Proof.
  intros Hx Hy.
  pose proof (size_ge_2 xs Hx); pose proof (size_ge_2 ys Hy).
  pose proof (pooled_variance_nonneg xs ys Hx Hy) as Hpv.
  unfold generate_statistical_analysis.pooled_std.
  rewrite !var_array, !len_array by assumption.
  repeat (rewrite minus_IZR || rewrite plus_IZR); rewrite !IZR_len; simpl.
  fold (Statistics.size xs) (Statistics.size ys).
  destruct (Reqb _ 0) eqn:E; [apply Reqb_true in E; lra|clear E].
  fold (Statistics.pooled_variance xs ys); simpl.
  destruct (Rltb _ 0) eqn:E; [apply Rltb_true in E; lra|reflexivity].
Qed.

Lemma pooled_std_singleton_l (v : float64) (b : ndarray) :
  generate_statistical_analysis.pooled_std [v] b = NaN.
Proof.
  unfold generate_statistical_analysis.pooled_std.
  rewrite var_singleton, mul_NaN_r; reflexivity.
Qed.

Lemma pooled_std_singleton_r (a : ndarray) (v : float64) :
  generate_statistical_analysis.pooled_std a [v] = NaN.
Proof.
  unfold generate_statistical_analysis.pooled_std.
  rewrite var_singleton, mul_NaN_r, add_NaN_r; reflexivity.
Qed.

(** With fewer than two samples in a group Cohen's d is [nan]. *)
Lemma effect_size_small_sample (a b : ndarray) :
  (List.length a < 2)%nat \/ (List.length b < 2)%nat ->
  generate_statistical_analysis.calculate_effect_size
    (mean a) (mean b) (generate_statistical_analysis.pooled_std a b) = NaN.
Proof.
  unfold generate_statistical_analysis.calculate_effect_size.
  intros [H|H].
  - destruct a as [|v [|w a]]; simpl in H; try lia.
    + rewrite mean_nil; reflexivity.
    + rewrite pooled_std_singleton_l; apply div_NaN_r.
  - destruct b as [|v [|w b]]; simpl in H; try lia.
    + rewrite mean_nil, sub_NaN_r; reflexivity.
    + rewrite pooled_std_singleton_r; apply div_NaN_r.
Qed.

(** Cohen's d on two groups of at least two finite samples. *)
Lemma effect_size_array (xs ys : list R) :
  (2 <= List.length xs)%nat -> (2 <= List.length ys)%nat ->
  calculate_effect_size (mean (array xs)) (mean (array ys))
    (pooled_std (array xs) (array ys))
  = div (Fin (Statistics.sample_mean xs - Statistics.sample_mean ys))
        (Fin (Statistics.pooled_std xs ys)).
Proof.
  intros Hx Hy.
  assert (xs <> []) by (destruct xs; simpl in Hx; [lia|congruence]).
  assert (ys <> []) by (destruct ys; simpl in Hy; [lia|congruence]).
  unfold calculate_effect_size.
  rewrite !mean_array, pooled_std_array by assumption; reflexivity.
Qed.

(** Two groups of zero variance: Cohen's d is the infinity with the sign of
    the difference of the means, [nan] when the means are equal. *)
Lemma effect_size_zero_variance (xs ys : list R) :
  (2 <= List.length xs)%nat -> (2 <= List.length ys)%nat ->
  Statistics.sample_variance xs = 0 -> Statistics.sample_variance ys = 0 ->
  calculate_effect_size (mean (array xs)) (mean (array ys))
    (pooled_std (array xs) (array ys))
  = signed_inf (Statistics.sample_mean xs - Statistics.sample_mean ys).
Proof.
  intros Hx Hy Vx Vy.
  rewrite effect_size_array, pooled_std_zero_variance by assumption.
  apply div_Fin_zero.
Qed.

(** *** Cohen's d as a function of the values it is computed from

    What follows is about [calculate_effect_size] alone: the two means are
    arbitrary values, the pooled standard deviation an arbitrary square
    root. *)

(** [np.sqrt] returns [nan], [inf] or a finite value that is not negative. *)
Lemma sqrt_cases (x : float64) :
  sqrt x = NaN \/ sqrt x = PInf \/ exists s, sqrt x = Fin s /\ 0 <= s.
Proof.
  destruct x as [x| | |]; simpl; auto.
  destruct (Rltb x 0); [auto|].
  right; right; eexists; split; [reflexivity|apply sqrt_pos].
Qed.



(** Finite means over a pooled standard deviation of zero. *)
Lemma effect_size_zero_pooled_std (m1 m2 : R) :
  calculate_effect_size (Fin m1) (Fin m2) (Fin 0) = signed_inf (m1 - m2).
Proof. unfold calculate_effect_size, sub; cbn [opp add]; apply div_Fin_zero. Qed.

(** A Cohen's d above a threshold that is not negative needs a baseline mean
    above the optimized mean, the pooled standard deviation being a square
    root. *)
Lemma effect_size_positive_inv (m1 m2 x : float64) (c : R) :
  0 <= c ->
  gtb (calculate_effect_size m1 m2 (sqrt x)) (Fin c) = true ->
  ltb m2 m1 = true.
Proof.
  intros Hc; unfold calculate_effect_size, sub, gtb.
  destruct (sqrt_cases x) as [->|[->|(s & -> & Hs)]].
  - rewrite div_NaN_r; discriminate.
  - destruct m1 as [a| | |], m2 as [b| | |]; simpl; try discriminate.
    intros E; apply Rltb_true in E; lra.
  - destruct m1 as [a| | |], m2 as [b| | |]; simpl;
      try discriminate; try (intros _; reflexivity);
      try (destruct (Rltb s 0) eqn:Es; [apply Rltb_true in Es; lra|discriminate]).
    destruct (Reqb s 0) eqn:Es.
    + unfold signed_inf.
      destruct (Rltb 0 (a + - b)) eqn:E1.
      * intros _; apply Rltb_true in E1; apply Rltb_true; lra.
      * destruct (Rltb (a + - b) 0); discriminate.
    + apply Reqb_false in Es; simpl.
      intros E; apply Rltb_true in E; apply Rltb_true.
      assert (Hinv : 0 < / s) by (apply Rinv_0_lt_compat; lra).
      unfold Rdiv in E; nra.
Qed.



(** Two groups of at least two samples whose variances NumPy computed as
    zero have a pooled standard deviation of zero. *)
Lemma pooled_std_zero_var (a b : ndarray) :
  (2 <= List.length a)%nat -> (2 <= List.length b)%nat ->
  var a 1 = Fin 0 -> var b 1 = Fin 0 -> pooled_std a b = Fin 0.
Proof.
  intros Ha Hb Va Vb; unfold pooled_std; rewrite Va, Vb; cbn [mul add].
  rewrite !Rmult_0_r, Rplus_0_r, div_Fin_nonzero.
  - unfold Rdiv; rewrite Rmult_0_l; cbn [sqrt].
    replace (Rltb 0 0) with false by (symmetry; apply Rltb_false; lra).
    now rewrite sqrt_0.
  - rewrite minus_IZR, plus_IZR, !IZR_len.
    apply le_INR in Ha, Hb; simpl in Ha, Hb; lra.
Qed.

(** *** Confidence intervals *)






(** *** The t-test *)

(** SciPy's pooled denominator on finite samples. *)
Lemma equal_var_ttest_denom_array (xs ys : list R) :
  (2 <= List.length xs)%nat -> (2 <= List.length ys)%nat ->
  equal_var_ttest_denom (var (array xs) 1) (len (array xs))
                        (var (array ys) 1) (len (array ys))
  = (Fin (Statistics.student_df xs ys),
     Fin (R_sqrt.sqrt (Statistics.pooled_variance xs ys
                       * (1 / Statistics.size xs + 1 / Statistics.size ys)))).
Proof.
  intros Hx Hy.
  pose proof (size_ge_2 xs Hx); pose proof (size_ge_2 ys Hy).
  pose proof (pooled_variance_nonneg xs ys Hx Hy) as Hpv.
  unfold equal_var_ttest_denom.
  rewrite !var_array, !len_array by assumption.
  repeat (rewrite minus_IZR || rewrite plus_IZR); rewrite !IZR_len.
  fold (Statistics.size xs) (Statistics.size ys).
  unfold Statistics.student_df; f_equal.
  cbn [mul add].
  rewrite !div_Fin_nonzero by lra.
  fold (Statistics.pooled_variance xs ys); cbn [mul add sqrt].
  assert (0 < 1 / Statistics.size xs + 1 / Statistics.size ys).
  { apply Rplus_lt_0_compat; apply Rdiv_lt_0_compat; lra. }
  replace (Rltb _ 0) with false; [reflexivity|].
  symmetry; apply Rltb_false; nra.
Qed.

(** On finite samples [ttest_ind] with its default [equal_var=True] is
    Student's test: pooled variance and [n1 + n2 - 2] degrees of freedom. *)
Lemma ttest_ind_array `{StudentT} (xs ys : list R) :
  (2 <= List.length xs)%nat -> (2 <= List.length ys)%nat ->
  Statistics.pooled_variance xs ys <> 0 ->
  ttest_ind (array xs) (array ys) true
  = (Fin (Statistics.student_t xs ys),
     mul (Fin 2) (t_sf (Fin (Rabs (Statistics.student_t xs ys)))
                       (Fin (Statistics.student_df xs ys)))).
Proof.
  intros Hx Hy Hpv.
  pose proof (size_ge_2 xs Hx); pose proof (size_ge_2 ys Hy).
  pose proof (pooled_variance_nonneg xs ys Hx Hy) as Hpv0.
  assert (xs <> []) by (destruct xs; simpl in Hx; [lia|congruence]).
  assert (ys <> []) by (destruct ys; simpl in Hy; [lia|congruence]).
  unfold ttest_ind; rewrite !len_nonzero by assumption; cbn [orb].
  rewrite equal_var_ttest_denom_array, !mean_array by assumption.
  unfold ttest_ind_from_stats.
  assert (Hden : R_sqrt.sqrt (Statistics.pooled_variance xs ys
                   * (1 / Statistics.size xs + 1 / Statistics.size ys)) <> 0).
  { assert (0 < 1 / Statistics.size xs + 1 / Statistics.size ys)
      by (apply Rplus_lt_0_compat; apply Rdiv_lt_0_compat; lra).
    pose proof (sqrt_lt_R0 (Statistics.pooled_variance xs ys
                   * (1 / Statistics.size xs + 1 / Statistics.size ys))) as Hs.
    assert (0 < Statistics.pooled_variance xs ys
                * (1 / Statistics.size xs + 1 / Statistics.size ys)) by nra.
    lra. }
  cbn [sub opp add]; rewrite div_Fin_nonzero by assumption.
  reflexivity.
Qed.

(** SciPy's Welch statistic on finite samples. *)
Lemma ttest_ind_welch_array `{StudentT} (xs ys : list R) :
  (2 <= List.length xs)%nat -> (2 <= List.length ys)%nat ->
  Statistics.sample_variance xs / Statistics.size xs
  + Statistics.sample_variance ys / Statistics.size ys <> 0 ->
  fst (ttest_ind (array xs) (array ys) false) = Fin (Statistics.welch_t xs ys).
Proof.
  intros Hx Hy Hv.
  pose proof (size_ge_2 xs Hx); pose proof (size_ge_2 ys Hy).
  pose proof (sample_variance_nonneg xs Hx); pose proof (sample_variance_nonneg ys Hy).
  assert (xs <> []) by (destruct xs; simpl in Hx; [lia|congruence]).
  assert (ys <> []) by (destruct ys; simpl in Hy; [lia|congruence]).
  assert (Hpos : 0 <= Statistics.sample_variance xs / Statistics.size xs
                      + Statistics.sample_variance ys / Statistics.size ys).
  { apply Rplus_le_le_0_compat; apply Rmult_le_pos; try assumption;
      left; apply Rinv_0_lt_compat; lra. }
  unfold ttest_ind; rewrite !len_nonzero by assumption; cbn [orb].
  unfold unequal_var_ttest_denom, ttest_ind_from_stats; cbn [fst].
  rewrite !var_array, !mean_array, !len_array, !IZR_len by assumption.
  fold (Statistics.size xs) (Statistics.size ys).
  rewrite !div_Fin_nonzero by lra; cbn [add sub opp sqrt].
  replace (Rltb _ 0) with false by (symmetry; apply Rltb_false; lra).
  rewrite div_Fin_nonzero; [reflexivity|].
  intros Hs; apply sqrt_eq_0 in Hs; [contradiction|assumption].
Qed.

(** The formulation matters: on groups of unequal size the pooled statistic
    and Welch's differ. *)
Lemma student_and_welch_differ `{StudentT} :
  fst (ttest_ind (array [0; 2]) (array [0; 0; 6]) true)
  <> fst (ttest_ind (array [0; 2]) (array [0; 0; 6]) false).
Proof.
  assert (Hpv : Statistics.pooled_variance [0; 2] [0; 0; 6] = 26 / 3).
  { unfold Statistics.pooled_variance, Statistics.sample_variance, Statistics.sum_sq_dev,
      Statistics.sample_mean, Statistics.size, Py.sum; simpl; lra. }
  assert (Hw : Statistics.sample_variance [0; 2] / Statistics.size [0; 2]
               + Statistics.sample_variance [0; 0; 6] / Statistics.size [0; 0; 6] = 5).
  { unfold Statistics.sample_variance, Statistics.sum_sq_dev,
      Statistics.sample_mean, Statistics.size, Py.sum; simpl; lra. }
  assert (Hm : Statistics.sample_mean [0; 2] - Statistics.sample_mean [0; 0; 6] = -1).
  { unfold Statistics.sample_mean, Statistics.size, Py.sum; simpl; lra. }
  rewrite ttest_ind_array, ttest_ind_welch_array;
    try (simpl; lia); try (rewrite Hpv; lra); try (rewrite Hw; lra).
  cbn [fst]; unfold Statistics.student_t, Statistics.welch_t; rewrite Hpv, Hw, Hm.
  replace (26 / 3 * (1 / Statistics.size [0; 2] + 1 / Statistics.size [0; 0; 6]))
    with (65 / 9) by (unfold Statistics.size; simpl; lra).
  intros [= Heq].
  assert (Hinv : / R_sqrt.sqrt (65 / 9) = / R_sqrt.sqrt 5) by lra.
  apply Rinv_eq_reg, sqrt_inj in Hinv; lra.
Qed.

(** *** The loop over the categories and the report *)

(** Whatever the number of categories, each stored result is the test of
    one category at the default [alpha]. *)
Lemma analyze_entries `{StudentT} (all_data benchmark_data : dict Samples)
  (results0 : dict StatResult) :
  incl benchmark_data all_data ->
  (forall name r, getitem results0 name = Ok r ->
     exists data, In (name, data) all_data /\
       perform_hypothesis_test (array (baseline data)) (array (optimized data))
         alpha_default = Ok r) ->
  exists results,
    for_each
      (fun results item =>
         let '(benchmark_name, data) := item in
         stats_result <- perform_hypothesis_test (array (baseline data))
                           (array (optimized data)) alpha_default ;;
         ret (setitem results benchmark_name stats_result))
      benchmark_data results0 = Ok results
    /\ (forall name,
          In name (keys benchmark_data) \/ (exists r0, getitem results0 name = Ok r0) ->
          exists r, getitem results name = Ok r)
    /\ forall name r, getitem results name = Ok r ->
         exists data, In (name, data) all_data /\
           perform_hypothesis_test (array (baseline data)) (array (optimized data))
             alpha_default = Ok r.
Proof.
  revert results0; induction benchmark_data as [|[n d] rest IH]; intros results0 Hincl Hinv.
  - exists results0; simpl; repeat split; auto.
    intros name [[]|Hr]; exact Hr.
  - pose proof (perform_hypothesis_test_returns (array (baseline d))
                  (array (optimized d)) alpha_default) as Hr0.
    match type of Hr0 with _ = Ok ?r => set (r0 := r) in Hr0 end.
    cbn [for_each]; rewrite Hr0; cbn [bind ret].
    destruct (IH (setitem results0 n r0)) as (results & Hrun & Hkeys & Hall).
    + intros x Hx; apply Hincl; right; exact Hx.
    + intros name r; rewrite getitem_setitem.
      destruct (String.eqb_spec name n) as [->|Hne].
      * intros [= <-]; exists d; split; [apply Hincl; left; reflexivity|exact Hr0].
      * apply Hinv.
    + exists results; split; [exact Hrun|split; [|exact Hall]].
      intros name Hname; apply Hkeys.
      destruct (String.eqb_spec name n) as [->|Hne].
      * right; exists r0; rewrite getitem_setitem, String.eqb_refl; reflexivity.
      * destruct Hname as [[Hn|Hin]|[r Hr]]; simpl in *.
        -- congruence.
        -- left; exact Hin.
        -- right; exists r; rewrite getitem_setitem.
           destruct (String.eqb_spec name n); [congruence|exact Hr].
Qed.

Lemma fold_count_significant (results : dict StatResult) (c : Z) :
  fold_left
    (fun significant_count item =>
       let '(benchmark_name, stats) := item in
       if is_significant stats then (significant_count + 1)%Z else significant_count)
    results c
  = (c + Count.significant_results results)%Z.
Proof.
  revert c; induction results as [|[n r] rest IH]; intros c.
  - unfold Count.significant_results, len; simpl; lia.
  - cbn [fold_left]; rewrite IH.
    unfold Count.significant_results, len; cbn [filter snd].
    destruct (is_significant r); cbn [List.length]; lia.
Qed.

(** On a non-empty dict of results the report is produced; its count is the
    number of significant results and decides at the threshold 3. *)
Lemma generate_statistical_report_decision (results : dict StatResult) :
  results <> [] ->
  exists rep,
    generate_statistical_report results = Ok rep
    /\ significant_count rep = Count.significant_results results
    /\ total_count rep = len results
    /\ decision rep
       = if (3 <=? Count.significant_results results)%Z
         then REJECT_NULL_HYPOTHESIS else FAIL_TO_REJECT_NULL_HYPOTHESIS.
Proof.
  intros Hne; unfold generate_statistical_report.
  rewrite fold_count_significant, Z.add_0_l.
  rewrite truediv_nonzero by now apply IZR_len_nonzero.
  eexists; split; [reflexivity|]; cbn [significant_count total_count decision].
  repeat split; rewrite Z.geb_leb; reflexivity.
Qed.

Lemma generate_statistical_report_empty :
  generate_statistical_report [] = Raise ZeroDivisionError.
Proof. unfold generate_statistical_report; simpl; rewrite truediv_zero; reflexivity. Qed.

(** The first category of the hypothesis tester's table: the means are
    70.05 and 21.45, Cohen's d is far above 0.8, and so the verdict is the
    comparison of the p-value with 0.05. *)
Example collection_pipeline_result `{StudentT} :
  exists data r,
    getitem benchmark_data "collection_pipeline" = Ok data
    /\ perform_hypothesis_test (array (baseline data)) (array (optimized data))
         alpha_default = Ok r
    /\ baseline_mean r = Fin 70.05
    /\ optimized_mean r = Fin 21.45
    /\ gtb (cohens_d r) (Fin 0.8) = true
    /\ is_significant r = ltb (p_value r) (Fin 0.05).
Proof.
  eexists; eexists; split; [reflexivity|].
  split; [apply perform_hypothesis_test_returns|].
  cbn [baseline_mean optimized_mean cohens_d is_significant p_value baseline optimized].
  set (b := [70.1; 69.8; 70.5; 69.9; 70.3; 70.0; 69.7; 70.2; 70.4; 69.6]).
  set (o := [21.4; 21.2; 21.6; 21.3; 21.5; 21.1; 21.7; 21.0; 21.8; 21.9]).
  assert (Hmb : Statistics.sample_mean b = 70.05)
    by (unfold Statistics.sample_mean, Statistics.size, Py.sum, b; simpl; lra).
  assert (Hmo : Statistics.sample_mean o = 21.45)
    by (unfold Statistics.sample_mean, Statistics.size, Py.sum, o; simpl; lra).
  assert (Hpv : Statistics.pooled_variance b o = 0.825 / 9).
  { unfold Statistics.pooled_variance, Statistics.sample_variance, Statistics.sum_sq_dev.
    rewrite Hmb, Hmo; unfold Statistics.size, Py.sum, b, o; simpl; lra. }
  assert (Hsd : 0 < Statistics.pooled_std b o <= 1).
  { unfold Statistics.pooled_std; rewrite Hpv; split.
    - apply sqrt_lt_R0; lra.
    - rewrite <- sqrt_1; apply sqrt_le_1; lra. }
  assert (Hd : gtb (calculate_effect_size (mean (array b)) (mean (array o))
                      (pooled_std (array b) (array o))) (Fin 0.8) = true).
  { rewrite effect_size_array, div_Fin_nonzero by (simpl; lia || lra).
    rewrite Hmb, Hmo; unfold gtb; simpl; apply Rltb_true.
    assert (1 <= / Statistics.pooled_std b o).
    { rewrite <- Rinv_1; apply Rinv_le_contravar; lra. }
    unfold Rdiv; nra. }
  rewrite Hd, andb_true_r, !mean_array, Hmb, Hmo by discriminate.
  repeat split.
Qed.

(** ** The ratio summarizer *)

Lemma loop_body_ok (optimized_results : dict R) (st : analyze_sample_results.LoopState)
  (benchmark : string) (baseline_time optimized_time : R) :
  getitem optimized_results benchmark = Ok optimized_time -> optimized_time <> 0 ->
  analyze_sample_results.loop_body optimized_results st (benchmark, baseline_time)
  = Ok {| analyze_sample_results.improvements :=
            analyze_sample_results.improvements st
            ++ [(benchmark, baseline_time / optimized_time)];
          analyze_sample_results.significant_improvements :=
            fst (analyze_sample_results.classify (baseline_time / optimized_time)
                   (analyze_sample_results.significant_improvements st));
          analyze_sample_results.printed :=
            analyze_sample_results.printed st
            ++ [(benchmark, baseline_time / optimized_time,
                 snd (analyze_sample_results.classify (baseline_time / optimized_time)
                        (analyze_sample_results.significant_improvements st)))] |}.
Proof.
  intros Hget Hnz; unfold analyze_sample_results.loop_body.
  rewrite Hget; cbn [bind]; rewrite truediv_nonzero by assumption; cbn [bind].
  now destruct (analyze_sample_results.classify _ _).
Qed.

Lemma loop_body_zero (optimized_results : dict R) (st : analyze_sample_results.LoopState)
  (benchmark : string) (baseline_time : R) :
  getitem optimized_results benchmark = Ok 0 ->
  analyze_sample_results.loop_body optimized_results st (benchmark, baseline_time)
  = Raise ZeroDivisionError.
Proof.
  intros Hget; unfold analyze_sample_results.loop_body.
  rewrite Hget; cbn [bind]; rewrite truediv_zero; reflexivity.
Qed.

(** Only the first branch of the chain adds to the counter. *)
Lemma classify_counter (ratio : R) (count : Z) :
  fst (analyze_sample_results.classify ratio count)
  = if Count.is_SIGNIFICANT (snd (analyze_sample_results.classify ratio count))
    then (count + 1)%Z else count.
Proof.
  unfold analyze_sample_results.classify.
  destruct (Rgeb ratio 2.0); [reflexivity|].
  destruct (Rgeb ratio 1.5); [reflexivity|].
  destruct (Rgeb ratio 1.1); reflexivity.
Qed.

Lemma significant_lines_snoc (lines : list (string * R * analyze_sample_results.Status))
  (line : string * R * analyze_sample_results.Status) :
  Count.significant_lines (lines ++ [line])
  = (Count.significant_lines lines
     + if Count.is_SIGNIFICANT (snd line) then 1 else 0)%Z.
Proof.
  unfold Count.significant_lines, len; rewrite filter_app, length_app; cbn [filter].
  destruct (Count.is_SIGNIFICANT (snd line)); cbn [List.length]; lia.
Qed.

(** When every baseline key has a nonzero optimized timing the loop runs to
    its end; it adds one entry per benchmark, and the counter moves with the
    number of printed lines in the "significant" band. *)
Lemma loop_runs (optimized_results baseline_results : dict R)
  (st0 : analyze_sample_results.LoopState) :
  (forall k, In k (keys baseline_results) ->
     exists t, getitem optimized_results k = Ok t /\ t <> 0) ->
  exists st,
    for_each (analyze_sample_results.loop_body optimized_results) baseline_results st0 = Ok st
    /\ List.length (analyze_sample_results.improvements st)
       = (List.length (analyze_sample_results.improvements st0)
          + List.length baseline_results)%nat
    /\ (analyze_sample_results.significant_improvements st
        - Count.significant_lines (analyze_sample_results.printed st)
        = analyze_sample_results.significant_improvements st0
          - Count.significant_lines (analyze_sample_results.printed st0))%Z.
Proof.
  revert st0; induction baseline_results as [|[k b] rest IH]; intros st0 Hopt.
  - exists st0; simpl; repeat split; lia.
  - destruct (Hopt k) as (t & Hget & Hnz); [left; reflexivity|].
    cbn [for_each]; rewrite (loop_body_ok _ st0 _ b _ Hget Hnz); cbn [bind].
    match goal with |- context [for_each _ rest ?s] => set (st1 := s) end.
    destruct (IH st1) as (st & Hrun & Hlen & Hcount).
    + intros k' Hk'; apply Hopt; right; exact Hk'.
    + exists st; split; [exact Hrun|split].
      * rewrite Hlen; subst st1; cbn [analyze_sample_results.improvements].
        rewrite length_app; simpl; lia.
      * rewrite Hcount; subst st1;
          cbn [analyze_sample_results.significant_improvements analyze_sample_results.printed].
        rewrite significant_lines_snoc, classify_counter; cbn [snd].
        destruct (Count.is_SIGNIFICANT _); lia.
Qed.

(** A zero optimized timing stops the loop with [ZeroDivisionError]. *)
Lemma loop_raises (optimized_results baseline_results : dict R)
  (st0 : analyze_sample_results.LoopState) (benchmark : string) :
  (forall k, In k (keys baseline_results) -> exists t, getitem optimized_results k = Ok t) ->
  In benchmark (keys baseline_results) ->
  getitem optimized_results benchmark = Ok 0 ->
  for_each (analyze_sample_results.loop_body optimized_results) baseline_results st0
  = Raise ZeroDivisionError.
Proof.
  intros Hkeys Hin Hzero; revert st0 Hkeys Hin.
  induction baseline_results as [|[k b] rest IH]; intros st0 Hkeys Hin; [destruct Hin|].
  cbn [for_each].
  destruct (Hkeys k) as (t & Hget); [left; reflexivity|].
  destruct (Req_dec_T t 0) as [->|Hnz].
  - rewrite loop_body_zero by assumption; reflexivity.
  - rewrite (loop_body_ok _ st0 _ b _ Hget Hnz); cbn [bind].
    apply IH.
    + intros k' Hk'; apply Hkeys; right; exact Hk'.
    + destruct Hin as [Heq|Hin]; [|exact Hin].
      simpl in Heq; subst k; congruence.
Qed.

(** On non-empty tables with a nonzero optimized timing for every baseline
    key the function reaches the preview, which decides at the threshold 3 on
    the number of lines in the "significant" band. *)
Lemma analyze_preview (baseline_results optimized_results : dict R) :
  baseline_results <> [] ->
  (forall k, In k (keys baseline_results) ->
     exists t, getitem optimized_results k = Ok t /\ t <> 0) ->
  exists s,
    analyze_sample_results.analyze baseline_results optimized_results = Ok s
    /\ analyze_sample_results.significant s
       = Count.significant_lines (analyze_sample_results.lines s)
    /\ analyze_sample_results.total_benchmarks s = len baseline_results
    /\ analyze_sample_results.preview s
       = if (3 <=? Count.significant_lines (analyze_sample_results.lines s))%Z
         then analyze_sample_results.NULL_HYPOTHESIS_LIKELY_TO_BE_REJECTED
         else analyze_sample_results.INSUFFICIENT_EVIDENCE_TO_REJECT_NULL_HYPOTHESIS.
Proof.
  intros Hne Hopt.
  destruct (loop_runs optimized_results baseline_results
              {| analyze_sample_results.improvements := [];
                 analyze_sample_results.significant_improvements := 0;
                 analyze_sample_results.printed := [] |} Hopt)
    as (st & Hrun & Hlen & Hcount).
  cbn [analyze_sample_results.improvements analyze_sample_results.significant_improvements
       analyze_sample_results.printed List.length Nat.add] in Hlen, Hcount.
  assert (Hsig : analyze_sample_results.significant_improvements st
                 = Count.significant_lines (analyze_sample_results.printed st)).
  { change (Count.significant_lines []) with 0%Z in Hcount; lia. }
  unfold analyze_sample_results.analyze; rewrite Hrun; cbn [bind].
  destruct (analyze_sample_results.improvements st) as [|i imps] eqn:Himp.
  { destruct baseline_results; [congruence|simpl in Hlen; lia]. }
  rewrite truediv_nonzero by (apply IZR_len_nonzero; discriminate); cbn [bind].
  rewrite truediv_nonzero by (apply IZR_len_nonzero; discriminate); cbn [bind].
  cbn [map Py.max Py.min bind ret].
  eexists; split; [reflexivity|].
  cbn [analyze_sample_results.significant analyze_sample_results.lines
       analyze_sample_results.total_benchmarks analyze_sample_results.preview].
  rewrite <- Hsig, Z.geb_leb; repeat split.
  unfold len; rewrite Hlen; reflexivity.
Qed.

Lemma analyze_empty : analyze_sample_results.analyze [] [] = Raise ZeroDivisionError.
Proof.
  unfold analyze_sample_results.analyze; cbn [for_each bind];
    cbn [analyze_sample_results.improvements analyze_sample_results.significant_improvements].
  change (IZR (len [])) with 0; rewrite truediv_zero; reflexivity.
Qed.

(** One iteration of the loop on literal timings: look the optimized timing
    up, divide, and settle the three comparisons of the chain. *)
Ltac run_iteration :=
  cbn [for_each];
  erewrite loop_body_ok by (first [reflexivity | lra]);
  cbn [bind];
  unfold analyze_sample_results.classify, Rgeb;
  repeat match goal with
    | |- context [Rleb ?a ?b] =>
        first [ replace (Rleb a b) with true by (symmetry; apply Rleb_true; lra)
              | replace (Rleb a b) with false by (symmetry; apply Rleb_false; lra) ]
    end;
  cbn [fst snd analyze_sample_results.improvements
       analyze_sample_results.significant_improvements
       analyze_sample_results.printed app Z.add Pos.add Pos.succ].

(** On the timings in the script five of the nine benchmarks are in the
    "significant" band, and the preview announces the rejection. *)
Example analyze_memory_workload_results_preview :
  exists s,
    analyze_sample_results.analyze_memory_workload_results = Ok s
    /\ analyze_sample_results.total_benchmarks s = 9%Z
    /\ analyze_sample_results.significant s = 5%Z
    /\ map (fun line => snd line) (analyze_sample_results.lines s)
       = [analyze_sample_results.SIGNIFICANT; analyze_sample_results.SIGNIFICANT;
          analyze_sample_results.SIGNIFICANT; analyze_sample_results.SIGNIFICANT;
          analyze_sample_results.MODEST; analyze_sample_results.REGRESSION;
          analyze_sample_results.GOOD; analyze_sample_results.REGRESSION;
          analyze_sample_results.SIGNIFICANT]
    /\ analyze_sample_results.preview s
       = analyze_sample_results.NULL_HYPOTHESIS_LIKELY_TO_BE_REJECTED.
Proof.
  unfold analyze_sample_results.analyze_memory_workload_results,
    analyze_sample_results.analyze, analyze_sample_results.baseline_results,
    analyze_sample_results.optimized_results.
  do 9 run_iteration.
  cbn [for_each bind analyze_sample_results.improvements
       analyze_sample_results.significant_improvements analyze_sample_results.printed].
  rewrite truediv_nonzero by (apply IZR_len_nonzero; discriminate); cbn [bind].
  rewrite truediv_nonzero by (apply IZR_len_nonzero; discriminate); cbn [bind].
  cbn [map Py.max Py.min bind ret].
  eexists; split; [reflexivity|].
  repeat split.
Qed.

(** * The claims *)

(** C1. For every pair of sample arrays the call with the default [alpha]
    returns the two-sided p-value that [ttest_ind] returned and the Cohen's d
    that [calculate_effect_size] computed from the two means and the pooled
    standard deviation, and [is_significant] is [true] exactly when that
    p-value is below 0.05 and that Cohen's d is above 0.8; a Cohen's d of at
    most 0.8 gives [false] whatever the p-value.  The p-value is the raw
    one: whatever the number of categories analysed, every stored result is
    such a call at [alpha = 0.05]. *)
Theorem is_significant_iff_p_and_effect_size `{StudentT} :
  (forall baseline_times optimized_times : ndarray,
     exists r,
       perform_hypothesis_test baseline_times optimized_times alpha_default = Ok r
       /\ p_value r = snd (ttest_ind baseline_times optimized_times true)
       /\ cohens_d r
          = calculate_effect_size (mean baseline_times) (mean optimized_times)
              (pooled_std baseline_times optimized_times)
       /\ is_significant r
          = ltb (snd (ttest_ind baseline_times optimized_times true)) (Fin 0.05)
            && gtb (calculate_effect_size (mean baseline_times) (mean optimized_times)
                      (pooled_std baseline_times optimized_times)) (Fin 0.8)
       /\ (is_significant r = true <->
             ltb (p_value r) (Fin 0.05) = true /\ gtb (cohens_d r) (Fin 0.8) = true)
       /\ (leb (cohens_d r) (Fin 0.8) = true -> is_significant r = false))
  /\ (forall benchmark_data : dict Samples,
        exists results,
          analyze benchmark_data = Ok results
          /\ (forall name, In name (keys benchmark_data) ->
                exists r, getitem results name = Ok r)
          /\ forall name r, getitem results name = Ok r ->
               exists data, In (name, data) benchmark_data /\
                 perform_hypothesis_test (array (baseline data))
                   (array (optimized data)) 0.05 = Ok r).
Proof.
  split.
  - intros a b; eexists; split; [apply perform_hypothesis_test_returns|].
    cbn [p_value cohens_d is_significant]; unfold alpha_default.
    split; [reflexivity|split; [reflexivity|split; [reflexivity|split]]].
    + apply andb_true_iff.
    + intros Hd; apply leb_gtb_false in Hd; rewrite Hd; apply andb_false_r.
  - intros data.
    destruct (analyze_entries data data [] (incl_refl _)) as (results & Hrun & Hkeys & Hall).
    + intros name r; simpl; discriminate.
    + exists results; split; [exact Hrun|split].
      * intros name Hin; apply Hkeys; left; exact Hin.
      * exact Hall.
Qed.

(** C2 (as the code has it). On a non-empty collection that the preceding
    steps process without error, the decision is "reject" (hypothesis tester)
    or "likely to be rejected" (ratio summarizer) exactly when the count of
    significant categories is at least 3, and the other one exactly when it
    is below 3; the total number of categories plays no part. *)
Theorem decision_at_three_significant :
  (forall results : dict StatResult,
     results <> [] ->
     exists rep,
       generate_statistical_report results = Ok rep
       /\ significant_count rep = Count.significant_results results
       /\ (decision rep = REJECT_NULL_HYPOTHESIS
           <-> (3 <= Count.significant_results results)%Z)
       /\ (decision rep = FAIL_TO_REJECT_NULL_HYPOTHESIS
           <-> (Count.significant_results results < 3)%Z))
  /\ (forall baseline_results optimized_results : dict R,
        baseline_results <> [] ->
        (forall k, In k (keys baseline_results) ->
           exists t, getitem optimized_results k = Ok t /\ t <> 0) ->
        exists s,
          analyze_sample_results.analyze baseline_results optimized_results = Ok s
          /\ analyze_sample_results.significant s
             = Count.significant_lines (analyze_sample_results.lines s)
          /\ (analyze_sample_results.preview s
              = analyze_sample_results.NULL_HYPOTHESIS_LIKELY_TO_BE_REJECTED
              <-> (3 <= analyze_sample_results.significant s)%Z)
          /\ (analyze_sample_results.preview s
              = analyze_sample_results.INSUFFICIENT_EVIDENCE_TO_REJECT_NULL_HYPOTHESIS
              <-> (analyze_sample_results.significant s < 3)%Z)).
Proof.
  split.
  - intros results Hne.
    destruct (generate_statistical_report_decision results Hne) as (rep & Hrep & Hc & _ & Hd).
    exists rep; split; [exact Hrep|split; [exact Hc|]].
    rewrite Hd; destruct (Z.leb_spec 3 (Count.significant_results results));
      split; split; intros; try discriminate; try reflexivity; lia.
  - intros bl opt Hne Hopt.
    destruct (analyze_preview bl opt Hne Hopt) as (s & Hs & Hc & _ & Hp).
    exists s; split; [exact Hs|split; [exact Hc|]].
    rewrite Hp, Hc; destruct (Z.leb_spec 3 (Count.significant_lines (analyze_sample_results.lines s)));
      split; split; intros; try discriminate; try reflexivity; lia.
Qed.

(** The scenario of the specification (nine categories, two significant:
    the report does not reject), and the tables of the ratio script. *)
Lemma decision_at_three_significant_witness :
  (exists rep,
     generate_statistical_report Count.nine_categories_two_significant = Ok rep
     /\ significant_count rep = 2%Z
     /\ decision rep = FAIL_TO_REJECT_NULL_HYPOTHESIS)
  /\ (exists s,
        analyze_sample_results.analyze analyze_sample_results.baseline_results
          analyze_sample_results.optimized_results = Ok s
        /\ (analyze_sample_results.preview s
              = analyze_sample_results.NULL_HYPOTHESIS_LIKELY_TO_BE_REJECTED
            <-> (3 <= analyze_sample_results.significant s)%Z)).
Proof.
  destruct decision_at_three_significant as [Hreport Hratio]; split.
  - destruct (Hreport Count.nine_categories_two_significant)
      as (rep & Hrep & Hc & _ & Hfail); [discriminate|].
    exists rep; split; [exact Hrep|split; [rewrite Hc; reflexivity|]].
    apply Hfail; reflexivity.
  - destruct (Hratio analyze_sample_results.baseline_results
                analyze_sample_results.optimized_results)
      as (s & Hs & _ & Hrej & _); [discriminate| |].
    + intros k Hk; simpl in Hk.
      repeat (destruct Hk as [<-|Hk]; [eexists; split; [reflexivity|lra]|]).
      destruct Hk.
    + exists s; split; [exact Hs|exact Hrej].
Defined.

(** C2, refuted as stated: on an empty collection the count of significant
    categories is 0, yet neither script reaches its decision; the success
    rate divides by the number of categories first. *)
Lemma empty_collection_has_no_decision :
  (Count.significant_results [] < 3)%Z
  /\ generate_statistical_report [] = Raise ZeroDivisionError
  /\ analyze_sample_results.analyze [] [] = Raise ZeroDivisionError.
Proof.
  split; [unfold Count.significant_results, len; simpl; lia|].
  split; [apply generate_statistical_report_empty|apply analyze_empty].
Qed.

(** C3. Every real ratio, and so every positive one, falls in exactly one of
    the four bands, with the cut-offs 2.0, 1.5 and 1.1; the counter of
    significant improvements grows by one in the "significant" band and is
    unchanged in the other three. *)
Theorem classification_bands (improvement_ratio : R) (significant_improvements : Z) :
  let status :=
    snd (analyze_sample_results.classify improvement_ratio significant_improvements) in
  let counter :=
    fst (analyze_sample_results.classify improvement_ratio significant_improvements) in
  (status = analyze_sample_results.SIGNIFICANT <-> 2.0 <= improvement_ratio)
  /\ (status = analyze_sample_results.GOOD <-> 1.5 <= improvement_ratio < 2.0)
  /\ (status = analyze_sample_results.MODEST <-> 1.1 <= improvement_ratio < 1.5)
  /\ (status = analyze_sample_results.REGRESSION <-> improvement_ratio < 1.1)
  /\ (status = analyze_sample_results.SIGNIFICANT ->
      counter = (significant_improvements + 1)%Z)
  /\ (status <> analyze_sample_results.SIGNIFICANT ->
      counter = significant_improvements).
Proof.
  cbv zeta; unfold analyze_sample_results.classify, Rgeb.
  destruct (Rleb 2.0 improvement_ratio) eqn:E2;
    [apply Rleb_true in E2|apply Rleb_false in E2];
    [|destruct (Rleb 1.5 improvement_ratio) eqn:E15;
      [apply Rleb_true in E15|apply Rleb_false in E15];
      [|destruct (Rleb 1.1 improvement_ratio) eqn:E11;
        [apply Rleb_true in E11|apply Rleb_false in E11]]];
    cbn [fst snd]; repeat split; intros; try discriminate; try congruence; lra.
Qed.






(** C6 (as the code has it). In the ratio summarizer an optimized timing of
    zero raises [ZeroDivisionError] (every baseline key having an optimized
    timing).  The hypothesis tester raises nothing, on any pair of sample
    arrays.  Where the computed pooled standard deviation is zero, as it is
    for two groups of at least two samples whose variances NumPy computed as
    zero, and the returned means are finite, Cohen's d is the infinity of
    the sign of the difference of the means, and [nan] when the means are
    equal. *)
Theorem zero_denominators `{StudentT} :
  (forall (baseline_results optimized_results : dict R) (benchmark : string),
     (forall k, In k (keys baseline_results) ->
        exists t, getitem optimized_results k = Ok t) ->
     In benchmark (keys baseline_results) ->
     getitem optimized_results benchmark = Ok 0 ->
     analyze_sample_results.analyze baseline_results optimized_results
     = Raise ZeroDivisionError)
  /\ (forall (baseline_times optimized_times : ndarray) (alpha : R),
        exists r,
          perform_hypothesis_test baseline_times optimized_times alpha = Ok r
          /\ baseline_mean r = mean baseline_times
          /\ optimized_mean r = mean optimized_times
          /\ cohens_d r
             = calculate_effect_size (mean baseline_times) (mean optimized_times)
                 (pooled_std baseline_times optimized_times)
          /\ ((2 <= List.length baseline_times)%nat ->
              (2 <= List.length optimized_times)%nat ->
              var baseline_times 1 = Fin 0 -> var optimized_times 1 = Fin 0 ->
              pooled_std baseline_times optimized_times = Fin 0)
          /\ (pooled_std baseline_times optimized_times = Fin 0 ->
              forall mb mo : R,
                baseline_mean r = Fin mb -> optimized_mean r = Fin mo ->
                cohens_d r = signed_inf (mb - mo)
                /\ (mb = mo -> cohens_d r = NaN))).
Proof.
  split.
  - intros bl opt benchmark Hkeys Hin Hzero.
    unfold analyze_sample_results.analyze.
    rewrite (loop_raises opt bl _ benchmark Hkeys Hin Hzero); reflexivity.
  - intros a b alpha.
    eexists; split; [apply perform_hypothesis_test_returns|].
    cbn [baseline_mean optimized_mean cohens_d].
    do 3 (split; [reflexivity|]); split; [apply pooled_std_zero_var|].
    intros -> mb mo -> ->; rewrite effect_size_zero_pooled_std.
    split; [reflexivity|].
    intros ->; rewrite Rminus_diag; unfold signed_inf; cmp.
Qed.

Lemma zero_denominators_witness :
  analyze_sample_results.analyze
    [("collection_pipeline"%string, 70.102)] [("collection_pipeline"%string, 0)]
  = Raise ZeroDivisionError
  /\ exists r,
       perform_hypothesis_test (H := Cauchy.student_t_one_df)
         (array [1; 1]) (array [1; 1]) alpha_default = Ok r
       /\ pooled_std (array [1; 1]) (array [1; 1]) = Fin 0
       /\ cohens_d r = NaN.
Proof.
  destruct (@zero_denominators Cauchy.student_t_one_df) as [Hratio Htest].
  split.
  - apply (Hratio _ _ "collection_pipeline"%string).
    + intros k [<-|[]]; exists 0; reflexivity.
    + left; reflexivity.
    + reflexivity.
  - destruct (Htest (array [1; 1]) (array [1; 1]) alpha_default)
      as (r & Hr & Hmb & Hmo & _ & Hp & Hd).
    assert (Hv : var (array [1; 1]) 1 = Fin 0)
      by (rewrite var_array, sample_variance_constant_pair by (simpl; lia); reflexivity).
    assert (Hp0 : pooled_std (array [1; 1]) (array [1; 1]) = Fin 0)
      by (apply Hp; simpl; try lia; exact Hv).
    rewrite mean_array in Hmb, Hmo by discriminate.
    exists r; split; [exact Hr|split; [exact Hp0|]].
    destruct (Hd Hp0 _ _ Hmb Hmo) as [_ Hnan]; apply Hnan; reflexivity.
Defined.

(** C6, refuted as stated: two groups of zero variance (zero pooled standard
    deviation) raise no error; the function returns a result whose Cohen's d
    is [nan]. *)
Lemma zero_variance_groups_do_not_raise :
  pooled_std (array [1; 1]) (array [1; 1]) = Fin 0
  /\ ~ raises (perform_hypothesis_test (H := Cauchy.student_t_one_df)
                 (array [1; 1]) (array [1; 1]) alpha_default)
  /\ exists r,
       perform_hypothesis_test (H := Cauchy.student_t_one_df)
         (array [1; 1]) (array [1; 1]) alpha_default = Ok r
       /\ cohens_d r = NaN.
Proof.
  split.
  { rewrite pooled_std_array by (simpl; lia); f_equal.
    apply pooled_std_zero_variance; apply sample_variance_constant_pair. }
  split.
  - intros [e He]; rewrite perform_hypothesis_test_returns in He; discriminate.
  - eexists; split; [apply perform_hypothesis_test_returns|].
    cbn [cohens_d]; rewrite effect_size_zero_variance;
      try apply sample_variance_constant_pair; try (simpl; lia).
    rewrite Rminus_diag; unfold signed_inf; cmp.
Qed.

(** C7 (as the code has it). A group with fewer than two samples raises
    nothing: the function returns, Cohen's d is [nan] and the result is not
    significant. *)
Theorem small_sample_returns_nan `{StudentT}
  (baseline_times optimized_times : ndarray) (alpha : R) :
  (List.length baseline_times < 2)%nat \/ (List.length optimized_times < 2)%nat ->
  exists r,
    perform_hypothesis_test baseline_times optimized_times alpha = Ok r
    /\ cohens_d r = NaN
    /\ is_significant r = false.
Proof.
  intros Hsmall; eexists; split; [apply perform_hypothesis_test_returns|].
  cbn [cohens_d is_significant].
  rewrite (effect_size_small_sample _ _ Hsmall); split; [reflexivity|].
  apply andb_false_r.
Qed.

Lemma small_sample_returns_nan_witness :
  exists r,
    perform_hypothesis_test (H := Cauchy.student_t_one_df)
      (array [1]) (array [2; 3]) alpha_default = Ok r
    /\ cohens_d r = NaN
    /\ is_significant r = false.
Proof.
  apply (@small_sample_returns_nan Cauchy.student_t_one_df (array [1]) (array [2; 3]) alpha_default).
  left; simpl; lia.
Defined.

(** C7, refuted as stated: one baseline sample against two optimized ones
    raises no error. *)
Lemma single_sample_does_not_raise :
  (List.length [1] < 2)%nat
  /\ ~ raises (perform_hypothesis_test (H := Cauchy.student_t_one_df)
      (array [1]) (array [2; 3]) alpha_default).
Proof.
  split; [simpl; lia|].
  intros [e He]; rewrite perform_hypothesis_test_returns in He; discriminate.
Qed.



(** C9. A benchmark whose optimized timing equals its (nonzero) baseline
    timing has the ratio 1 and is printed as a regression; the counter of
    significant improvements is unchanged. *)
Theorem equal_timings_are_a_regression (optimized_results : dict R)
  (st : analyze_sample_results.LoopState) (benchmark : string) (baseline_time : R) :
  baseline_time <> 0 ->
  getitem optimized_results benchmark = Ok baseline_time ->
  truediv baseline_time baseline_time = Ok 1
  /\ analyze_sample_results.loop_body optimized_results st (benchmark, baseline_time)
     = Ok {| analyze_sample_results.improvements :=
               analyze_sample_results.improvements st ++ [(benchmark, 1)];
             analyze_sample_results.significant_improvements :=
               analyze_sample_results.significant_improvements st;
             analyze_sample_results.printed :=
               analyze_sample_results.printed st
               ++ [(benchmark, 1, analyze_sample_results.REGRESSION)] |}.
Proof.
  intros Hnz Hget.
  assert (Hone : baseline_time / baseline_time = 1) by (now apply Rdiv_diag).
  split; [rewrite truediv_nonzero by assumption; now rewrite Hone|].
  rewrite (loop_body_ok _ st _ _ _ Hget Hnz), Hone.
  unfold analyze_sample_results.classify, Rgeb.
  replace (Rleb 2.0 1) with false by (symmetry; apply Rleb_false; lra).
  replace (Rleb 1.5 1) with false by (symmetry; apply Rleb_false; lra).
  replace (Rleb 1.1 1) with false by (symmetry; apply Rleb_false; lra).
  reflexivity.
Qed.

Lemma equal_timings_are_a_regression_witness :
  truediv 70.102 70.102 = Ok 1
  /\ analyze_sample_results.loop_body [("collection_pipeline"%string, 70.102)]
       {| analyze_sample_results.improvements := [];
          analyze_sample_results.significant_improvements := 0;
          analyze_sample_results.printed := [] |}
       ("collection_pipeline"%string, 70.102)
     = Ok {| analyze_sample_results.improvements := [("collection_pipeline"%string, 1)];
             analyze_sample_results.significant_improvements := 0;
             analyze_sample_results.printed :=
               [("collection_pipeline"%string, 1, analyze_sample_results.REGRESSION)] |}.
Proof.
  apply (equal_timings_are_a_regression
           [("collection_pipeline"%string, 70.102)]
           {| analyze_sample_results.improvements := [];
              analyze_sample_results.significant_improvements := 0;
              analyze_sample_results.printed := [] |}
           "collection_pipeline"%string 70.102).
  - lra.
  - reflexivity.
Defined.



(** * Further properties of the ratio summarizer *)

Lemma getitem_missing {V} (d : dict V) (k : string) :
  ~ In k (keys d) -> getitem d k = Raise (KeyError k).
Proof.
  induction d as [|[k' v] d IH]; intros Hk; simpl; [reflexivity|].
  destruct (String.eqb_spec k k') as [->|Hne].
  - exfalso; apply Hk; left; reflexivity.
  - apply IH; intros Hin; apply Hk; right; exact Hin.
Qed.

Lemma getitem_Ok_In {V} (d : dict V) (k : string) (v : V) :
  getitem d k = Ok v -> In (k, v) d.
Proof.
  induction d as [|[k' v'] d IH]; simpl; [discriminate|].
  destruct (String.eqb_spec k k') as [->|Hne].
  - intros [= ->]; left; reflexivity.
  - intros H; right; apply IH; exact H.
Qed.

Lemma for_each_app {S A} (body : S -> A -> result S) (xs ys : list A) (st : S) :
  for_each body (xs ++ ys) st = bind (for_each body xs st) (for_each body ys).
Proof.
  revert st; induction xs as [|x xs IH]; intros st; simpl; [reflexivity|].
  destruct (body st x); simpl; [apply IH|reflexivity].
Qed.

(** The status does not depend on the counter. *)
Lemma classify_status (ratio : R) (count : Z) :
  snd (analyze_sample_results.classify ratio count)
  = snd (analyze_sample_results.classify ratio 0).
Proof.
  unfold analyze_sample_results.classify.
  destruct (Rgeb ratio 2.0); [reflexivity|].
  destruct (Rgeb ratio 1.5); [reflexivity|].
  destruct (Rgeb ratio 1.1); reflexivity.
Qed.

(** A loop that ends without exception found a nonzero optimized timing for
    every baseline key. *)
Lemma loop_ok_inv (optimized_results baseline_results : dict R)
  (st0 st : analyze_sample_results.LoopState) :
  for_each (analyze_sample_results.loop_body optimized_results) baseline_results st0 = Ok st ->
  forall k, In k (keys baseline_results) ->
    exists t, getitem optimized_results k = Ok t /\ t <> 0.
Proof.
  revert st0; induction baseline_results as [|[k0 b] rest IH]; intros st0 Hrun k Hk.
  - destruct Hk.
  - cbn [for_each] in Hrun.
    unfold analyze_sample_results.loop_body in Hrun at 1.
    destruct (getitem optimized_results k0) as [t|e] eqn:Hget; cbn [bind] in Hrun;
      [|discriminate].
    destruct (Req_dec_T t 0) as [->|Hnz].
    { rewrite truediv_zero in Hrun; discriminate. }
    rewrite truediv_nonzero in Hrun by assumption; cbn [bind] in Hrun.
    destruct (analyze_sample_results.classify _ _) as [c status]; cbn [bind ret] in Hrun.
    destruct Hk as [Hk|Hk].
    + simpl in Hk; subst k0; exists t; split; assumption.
    + eapply IH; eassumption.
Qed.

(** The trace of a loop that runs to its end: one entry and one printed
    line per baseline entry, in order. *)
Lemma loop_trace (optimized_results baseline_results : dict R)
  (st0 : analyze_sample_results.LoopState) :
  (forall k, In k (keys baseline_results) ->
     exists t, getitem optimized_results k = Ok t /\ t <> 0) ->
  exists st,
    for_each (analyze_sample_results.loop_body optimized_results) baseline_results st0 = Ok st
    /\ analyze_sample_results.improvements st
       = analyze_sample_results.improvements st0
         ++ map (fun item => (fst item, Lines.ratio_of optimized_results item)) baseline_results
    /\ analyze_sample_results.printed st
       = analyze_sample_results.printed st0
         ++ map (Lines.line_of optimized_results) baseline_results.
Proof.
  revert st0; induction baseline_results as [|[k b] rest IH]; intros st0 Hopt.
  - exists st0; simpl; rewrite !app_nil_r; repeat split.
  - destruct (Hopt k) as (t & Hget & Hnz); [left; reflexivity|].
    cbn [for_each]; rewrite (loop_body_ok _ st0 _ b _ Hget Hnz); cbn [bind].
    match goal with |- context [for_each _ rest ?s] => set (st1 := s) end.
    destruct (IH st1) as (st & Hrun & Himp & Hpr).
    { intros k' Hk'; apply Hopt; right; exact Hk'. }
    exists st; split; [exact Hrun|].
    assert (Hr : Lines.ratio_of optimized_results (k, b) = b / t).
    { unfold Lines.ratio_of, Lines.optimized_time_of; cbn [fst snd]; now rewrite Hget. }
    rewrite Himp, Hpr; subst st1;
      cbn [analyze_sample_results.improvements analyze_sample_results.printed map fst].
    unfold Lines.line_of; rewrite Hr; cbn [fst].
    rewrite <- !app_assoc, classify_status; split; reflexivity.
Qed.

Lemma max_spec (xs : list R) :
  xs <> [] ->
  exists M, Py.max xs = Ok M /\ In M xs /\ forall x, In x xs -> x <= M.
Proof.
  destruct xs as [|x0 xs]; [congruence|intros _; cbn [Py.max]].
  eexists; split; [reflexivity|].
  revert x0; induction xs as [|y ys IH]; intros x0; cbn [fold_left].
  - split; [left; reflexivity|]. intros x [<-|[]]; lra.
  - destruct (IH (Rmax x0 y)) as [Hin Hle]; split.
    + destruct Hin as [Heq|Hin]; [|right; right; exact Hin].
      rewrite <- Heq; unfold Rmax; destruct (Rle_dec x0 y); [right; left|left]; reflexivity.
    + intros x [<-|[<-|Hx]].
      * etransitivity; [apply Rmax_l|apply Hle; left; reflexivity].
      * etransitivity; [apply Rmax_r|apply Hle; left; reflexivity].
      * apply Hle; right; exact Hx.
Qed.

Lemma min_spec (xs : list R) :
  xs <> [] ->
  exists m, Py.min xs = Ok m /\ In m xs /\ forall x, In x xs -> m <= x.
Proof.
  destruct xs as [|x0 xs]; [congruence|intros _; cbn [Py.min]].
  eexists; split; [reflexivity|].
  revert x0; induction xs as [|y ys IH]; intros x0; cbn [fold_left].
  - split; [left; reflexivity|]. intros x [<-|[]]; lra.
  - destruct (IH (Rmin x0 y)) as [Hin Hle]; split.
    + destruct Hin as [Heq|Hin]; [|right; right; exact Hin].
      rewrite <- Heq; unfold Rmin; destruct (Rle_dec x0 y); [left|right; left]; reflexivity.
    + intros x [<-|[<-|Hx]].
      * etransitivity; [apply Hle; left; reflexivity|apply Rmin_l].
      * etransitivity; [apply Hle; left; reflexivity|apply Rmin_r].
      * apply Hle; right; exact Hx.
Qed.

Lemma len_map {A B} (f : A -> B) (xs : list A) : len (map f xs) = len xs.
Proof. unfold len; now rewrite length_map. Qed.

(** Everything the function returns, when it returns. *)
Lemma analyze_returns (baseline_results optimized_results : dict R) :
  baseline_results <> [] ->
  (forall k, In k (keys baseline_results) ->
     exists t, getitem optimized_results k = Ok t /\ t <> 0) ->
  exists M m,
    Py.max (map (Lines.ratio_of optimized_results) baseline_results) = Ok M
    /\ Py.min (map (Lines.ratio_of optimized_results) baseline_results) = Ok m
    /\ analyze_sample_results.analyze baseline_results optimized_results
       = Ok {| analyze_sample_results.lines :=
                 map (Lines.line_of optimized_results) baseline_results;
               analyze_sample_results.total_benchmarks := len baseline_results;
               analyze_sample_results.significant :=
                 Count.significant_lines
                   (map (Lines.line_of optimized_results) baseline_results);
               analyze_sample_results.success_rate :=
                 IZR (Count.significant_lines
                        (map (Lines.line_of optimized_results) baseline_results))
                 / IZR (len baseline_results) * 100;
               analyze_sample_results.avg_improvement :=
                 Py.sum (map (Lines.ratio_of optimized_results) baseline_results)
                 / IZR (len baseline_results);
               analyze_sample_results.max_improvement := M;
               analyze_sample_results.min_improvement := m;
               analyze_sample_results.preview :=
                 if (Count.significant_lines
                       (map (Lines.line_of optimized_results) baseline_results) >=? 3)%Z
                 then analyze_sample_results.NULL_HYPOTHESIS_LIKELY_TO_BE_REJECTED
                 else analyze_sample_results.INSUFFICIENT_EVIDENCE_TO_REJECT_NULL_HYPOTHESIS |}.
Proof.
  intros Hne Hopt.
  set (st0 := {| analyze_sample_results.improvements := [];
                 analyze_sample_results.significant_improvements := 0;
                 analyze_sample_results.printed := [] |}).
  destruct (loop_trace optimized_results baseline_results st0 Hopt)
    as (st & Hrun & Himp & Hpr).
  destruct (loop_runs optimized_results baseline_results st0 Hopt)
    as (st' & Hrun' & _ & Hcount).
  rewrite Hrun in Hrun'; injection Hrun' as <-.
  cbn [st0 analyze_sample_results.improvements analyze_sample_results.printed
       analyze_sample_results.significant_improvements app] in Himp, Hpr, Hcount.
  change (Count.significant_lines []) with 0%Z in Hcount.
  assert (Hsig : analyze_sample_results.significant_improvements st
                 = Count.significant_lines
                     (map (Lines.line_of optimized_results) baseline_results))
    by (rewrite <- Hpr; lia).
  assert (Hratios : map snd (analyze_sample_results.improvements st)
                    = map (Lines.ratio_of optimized_results) baseline_results)
    by (rewrite Himp, map_map; reflexivity).
  assert (Hnz : IZR (len baseline_results) <> 0) by now apply IZR_len_nonzero.
  assert (Hrne : map (Lines.ratio_of optimized_results) baseline_results <> [])
    by (destruct baseline_results; [congruence|discriminate]).
  destruct (max_spec _ Hrne) as (M & HM & _).
  destruct (min_spec _ Hrne) as (m & Hm & _).
  exists M, m; split; [exact HM|split; [exact Hm|]].
  unfold analyze_sample_results.analyze; fold st0; rewrite Hrun; cbn [bind].
  rewrite Hratios, Hsig, Hpr.
  replace (len (analyze_sample_results.improvements st)) with (len baseline_results)
    by (rewrite Himp, len_map; reflexivity).
  rewrite len_map, !truediv_nonzero by assumption; cbn [bind].
  rewrite HM, Hm; reflexivity.
Qed.

(** The tables of the script have an optimized timing, not zero, for every
    baseline key. *)
Lemma source_tables_complete :
  forall k, In k (keys analyze_sample_results.baseline_results) ->
    exists t, getitem analyze_sample_results.optimized_results k = Ok t /\ t <> 0.
Proof.
  intros k Hk; simpl in Hk.
  repeat (destruct Hk as [<-|Hk]; [eexists; split; [reflexivity|lra]|]).
  destruct Hk.
Qed.

(** X1. The function returns exactly when the baseline table is not empty
    and every one of its keys has an optimized timing that is not zero; in
    every other case it raises. *)
Theorem analyze_returns_iff (baseline_results optimized_results : dict R) :
  (exists s, analyze_sample_results.analyze baseline_results optimized_results = Ok s)
  <-> (baseline_results <> []
       /\ forall k, In k (keys baseline_results) ->
            exists t, getitem optimized_results k = Ok t /\ t <> 0).
Proof.
  split.
  - intros [s Hs]; unfold analyze_sample_results.analyze in Hs.
    destruct (for_each _ baseline_results _) as [st|e] eqn:Hrun; cbn [bind] in Hs;
      [|discriminate].
    split; [|eapply loop_ok_inv; eassumption].
    intros ->; cbn [for_each] in Hrun; injection Hrun as <-.
    cbn [analyze_sample_results.improvements
         analyze_sample_results.significant_improvements] in Hs.
    change (IZR (len [])) with 0 in Hs; rewrite truediv_zero in Hs; discriminate.
  - intros [Hne Hopt].
    destruct (analyze_returns _ _ Hne Hopt) as (M & m & _ & _ & Hs).
    eexists; exact Hs.
Qed.

(** X2. A baseline key with no optimized timing raises [KeyError] of that
    key, provided the benchmarks before it were processed. *)
Theorem missing_optimized_key_raises (before after : dict R) (benchmark : string)
  (baseline_time : R) (optimized_results : dict R) :
  (forall k, In k (keys before) ->
     exists t, getitem optimized_results k = Ok t /\ t <> 0) ->
  ~ In benchmark (keys optimized_results) ->
  analyze_sample_results.analyze (before ++ (benchmark, baseline_time) :: after)
    optimized_results
  = Raise (KeyError benchmark).
Proof.
  intros Hbefore Hmissing; unfold analyze_sample_results.analyze.
  rewrite for_each_app.
  destruct (loop_runs optimized_results before
              {| analyze_sample_results.improvements := [];
                 analyze_sample_results.significant_improvements := 0;
                 analyze_sample_results.printed := [] |} Hbefore) as (st & Hrun & _).
  rewrite Hrun; cbn [bind for_each].
  unfold analyze_sample_results.loop_body at 1.
  rewrite (getitem_missing _ _ Hmissing); reflexivity.
Qed.

Lemma missing_optimized_key_raises_witness :
  analyze_sample_results.analyze
    [("collection_pipeline"%string, 70.102); ("string_building"%string, 7.2465)]
    [("collection_pipeline"%string, 21.377)]
  = Raise (KeyError "string_building"%string).
Proof.
  apply (missing_optimized_key_raises
           [("collection_pipeline"%string, 70.102)] []
           "string_building"%string 7.2465
           [("collection_pipeline"%string, 21.377)]).
  - intros k [<-|[]]; eexists; split; [reflexivity|lra].
  - intros [H|[]]; discriminate.
Defined.



(** X4. When the function returns, the best and the worst improvement are
    the ratios of two printed lines, and the ratio of every printed line lies
    between them. *)
Theorem best_and_worst_are_printed_ratios (baseline_results optimized_results : dict R) :
  baseline_results <> [] ->
  (forall k, In k (keys baseline_results) ->
     exists t, getitem optimized_results k = Ok t /\ t <> 0) ->
  exists s,
    analyze_sample_results.analyze baseline_results optimized_results = Ok s
    /\ In (analyze_sample_results.max_improvement s)
          (map (fun line => snd (fst line)) (analyze_sample_results.lines s))
    /\ In (analyze_sample_results.min_improvement s)
          (map (fun line => snd (fst line)) (analyze_sample_results.lines s))
    /\ forall line, In line (analyze_sample_results.lines s) ->
         analyze_sample_results.min_improvement s
         <= snd (fst line)
         <= analyze_sample_results.max_improvement s.
Proof.
  intros Hne Hopt.
  destruct (analyze_returns _ _ Hne Hopt) as (M & m & HM & Hm & Hs).
  set (ratios := map (Lines.ratio_of optimized_results) baseline_results) in *.
  assert (Hrne : ratios <> [])
    by (subst ratios; destruct baseline_results; [congruence|discriminate]).
  destruct (max_spec _ Hrne) as (M' & HM' & HinM & HleM); rewrite HM in HM'; injection HM' as <-.
  destruct (min_spec _ Hrne) as (m' & Hm' & Hinm & Hlem); rewrite Hm in Hm'; injection Hm' as <-.
  eexists; split; [exact Hs|].
  cbn [analyze_sample_results.min_improvement analyze_sample_results.max_improvement
       analyze_sample_results.lines].
  rewrite map_map; cbn [Lines.line_of fst snd].
  split; [exact HinM|split; [exact Hinm|]].
  intros line Hline; apply in_map_iff in Hline; destruct Hline as (item & <- & Hitem).
  cbn [Lines.line_of fst snd].
  assert (Hin : In (Lines.ratio_of optimized_results item) ratios)
    by (subst ratios; now apply in_map).
  split; auto.
Qed.

Lemma best_and_worst_are_printed_ratios_witness :
  exists s,
    analyze_sample_results.analyze_memory_workload_results = Ok s
    /\ In (analyze_sample_results.max_improvement s)
          (map (fun line => snd (fst line)) (analyze_sample_results.lines s))
    /\ In (analyze_sample_results.min_improvement s)
          (map (fun line => snd (fst line)) (analyze_sample_results.lines s)).
Proof.
  destruct (best_and_worst_are_printed_ratios analyze_sample_results.baseline_results
              analyze_sample_results.optimized_results)
    as (s & Hs & HM & Hm & _); [discriminate|apply source_tables_complete|].
  exists s; split; [exact Hs|split; [exact HM|exact Hm]].
Defined.

Lemma significant_lines_bounds (lines : list (string * R * analyze_sample_results.Status)) :
  (0 <= Count.significant_lines lines <= len lines)%Z.
Proof.
  unfold Count.significant_lines, len.
  pose proof (filter_length_le (fun line => Count.is_SIGNIFICANT (snd line)) lines); lia.
Qed.

(** X5. When the function returns, the number of significant improvements
    is between 0 and the number of benchmarks, and the success rate is that
    share as a percentage, between 0 and 100. *)
Theorem success_rate_is_a_percentage (baseline_results optimized_results : dict R) :
  baseline_results <> [] ->
  (forall k, In k (keys baseline_results) ->
     exists t, getitem optimized_results k = Ok t /\ t <> 0) ->
  exists s,
    analyze_sample_results.analyze baseline_results optimized_results = Ok s
    /\ (0 <= analyze_sample_results.significant s
        <= analyze_sample_results.total_benchmarks s)%Z
    /\ analyze_sample_results.success_rate s
       = IZR (analyze_sample_results.significant s)
         / IZR (analyze_sample_results.total_benchmarks s) * 100
    /\ 0 <= analyze_sample_results.success_rate s <= 100.
Proof.
  intros Hne Hopt.
  destruct (analyze_returns _ _ Hne Hopt) as (M & m & _ & _ & Hs).
  eexists; split; [exact Hs|].
  cbn [analyze_sample_results.significant analyze_sample_results.total_benchmarks
       analyze_sample_results.success_rate].
  pose proof (significant_lines_bounds
                (map (Lines.line_of optimized_results) baseline_results)) as [H0 H1].
  rewrite len_map in H1.
  split; [split; assumption|split; [reflexivity|]].
  assert (Hpos : 0 < IZR (len baseline_results)).
  { rewrite IZR_len; apply lt_0_INR; destruct baseline_results; [congruence|simpl; lia]. }
  apply IZR_le in H0, H1.
  assert (Hinv : 0 < / IZR (len baseline_results)) by now apply Rinv_0_lt_compat.
  set (c := IZR (Count.significant_lines _)) in *.
  assert (Hq : 0 <= c / IZR (len baseline_results) <= 1).
  { unfold Rdiv; split; [apply Rmult_le_pos; lra|].
    apply Rmult_le_reg_r with (IZR (len baseline_results)); [assumption|].
    rewrite Rmult_assoc, Rinv_l by lra; lra. }
  lra.
Qed.

Lemma success_rate_is_a_percentage_witness :
  exists s,
    analyze_sample_results.analyze_memory_workload_results = Ok s
    /\ 0 <= analyze_sample_results.success_rate s <= 100.
Proof.
  destruct (success_rate_is_a_percentage analyze_sample_results.baseline_results
              analyze_sample_results.optimized_results)
    as (s & Hs & _ & _ & Hr); [discriminate|apply source_tables_complete|].
  exists s; split; [exact Hs|exact Hr].
Defined.

(** X6. For a positive optimized timing, a benchmark is "significant"
    exactly when its baseline timing is at least twice the optimized one; a
    "good" or "modest" one is a speed-up of less than that; and every
    slow-down, or equal timing, is a "regression". *)
Theorem bands_compare_the_timings (optimized_results : dict R)
  (st : analyze_sample_results.LoopState) (benchmark : string)
  (baseline_time optimized_time : R) :
  getitem optimized_results benchmark = Ok optimized_time ->
  0 < optimized_time ->
  exists status,
    analyze_sample_results.loop_body optimized_results st (benchmark, baseline_time)
    = Ok {| analyze_sample_results.improvements :=
              analyze_sample_results.improvements st
              ++ [(benchmark, baseline_time / optimized_time)];
            analyze_sample_results.significant_improvements :=
              if Count.is_SIGNIFICANT status
              then (analyze_sample_results.significant_improvements st + 1)%Z
              else analyze_sample_results.significant_improvements st;
            analyze_sample_results.printed :=
              analyze_sample_results.printed st
              ++ [(benchmark, baseline_time / optimized_time, status)] |}
    /\ (status = analyze_sample_results.SIGNIFICANT
        <-> 2 * optimized_time <= baseline_time)
    /\ (status = analyze_sample_results.GOOD \/ status = analyze_sample_results.MODEST ->
        optimized_time < baseline_time < 2 * optimized_time)
    /\ (baseline_time <= optimized_time -> status = analyze_sample_results.REGRESSION).
Proof.
  intros Hget Hpos.
  assert (Hnz : optimized_time <> 0) by lra.
  rewrite (loop_body_ok _ st _ baseline_time _ Hget Hnz), classify_counter.
  set (r := baseline_time / optimized_time).
  assert (Hb : baseline_time = r * optimized_time) by (subst r; field; assumption).
  eexists; split; [reflexivity|].
  unfold analyze_sample_results.classify, Rgeb.
  destruct (Rleb 2.0 r) eqn:E2;
    [apply Rleb_true in E2|apply Rleb_false in E2];
    [|destruct (Rleb 1.5 r) eqn:E15;
      [apply Rleb_true in E15|apply Rleb_false in E15];
      [|destruct (Rleb 1.1 r) eqn:E11;
        [apply Rleb_true in E11|apply Rleb_false in E11]]];
    cbn [fst snd]; repeat split; intros;
    repeat match goal with H : _ \/ _ |- _ => destruct H end;
    try discriminate; try reflexivity; try (exfalso; nra); nra.
Qed.

Lemma bands_compare_the_timings_witness :
  exists status,
    analyze_sample_results.loop_body analyze_sample_results.optimized_results
      {| analyze_sample_results.improvements := [];
         analyze_sample_results.significant_improvements := 0;
         analyze_sample_results.printed := [] |}
      ("recursive_processing"%string, 29.403)
    = Ok {| analyze_sample_results.improvements :=
              [("recursive_processing"%string, 29.403 / 34.084)];
            analyze_sample_results.significant_improvements := 0;
            analyze_sample_results.printed :=
              [("recursive_processing"%string, 29.403 / 34.084, status)] |}
    /\ status = analyze_sample_results.REGRESSION.
Proof.
  destruct (bands_compare_the_timings analyze_sample_results.optimized_results
              {| analyze_sample_results.improvements := [];
                 analyze_sample_results.significant_improvements := 0;
                 analyze_sample_results.printed := [] |}
              "recursive_processing"%string 29.403 34.084)
    as (status & Hrun & _ & _ & Hslow); [reflexivity|lra|].
  assert (Hs : status = analyze_sample_results.REGRESSION) by (apply Hslow; lra).
  exists status; split; [|exact Hs].
  rewrite Hrun, Hs; reflexivity.
Defined.

(** * Further properties of the hypothesis tester *)

Lemma signed_inf_opp (x : R) : signed_inf (- x) = opp (signed_inf x).
Proof. unfold signed_inf; cmp. Qed.

Lemma pooled_variance_sym (xs ys : list R) :
  Statistics.pooled_variance xs ys = Statistics.pooled_variance ys xs.
Proof.
  unfold Statistics.pooled_variance.
  rewrite (Rplus_comm (_ * Statistics.sample_variance xs)).
  rewrite (Rplus_comm (Statistics.size xs)); reflexivity.
Qed.

Lemma pooled_std_sym (xs ys : list R) :
  Statistics.pooled_std xs ys = Statistics.pooled_std ys xs.
Proof. unfold Statistics.pooled_std; now rewrite pooled_variance_sym. Qed.

(** Cohen's d of finite groups, whatever their sizes and variances. *)
Lemma effect_size_cases (xs ys : list R) :
  calculate_effect_size (mean (array xs)) (mean (array ys))
    (pooled_std (array xs) (array ys))
  = if (List.length xs <? 2)%nat || (List.length ys <? 2)%nat then NaN
    else if Reqb (Statistics.pooled_std xs ys) 0
         then signed_inf (Statistics.sample_mean xs - Statistics.sample_mean ys)
         else Fin (Statistics.cohens_d xs ys).
Proof.
  destruct (Nat.ltb_spec (List.length xs) 2) as [Hx|Hx]; cbn [orb].
  { apply effect_size_small_sample; left; unfold array; now rewrite length_map. }
  destruct (Nat.ltb_spec (List.length ys) 2) as [Hy|Hy].
  { apply effect_size_small_sample; right; unfold array; now rewrite length_map. }
  rewrite effect_size_array by assumption.
  destruct (Reqb _ 0) eqn:E.
  - apply Reqb_true in E; rewrite E; apply div_Fin_zero.
  - apply Reqb_false in E; now apply div_Fin_nonzero.
Qed.

(** A Cohen's d above 0.8 needs two samples in each group and a baseline
    mean above the optimized mean. *)
Lemma large_effect_inv (xs ys : list R) :
  gtb (calculate_effect_size (mean (array xs)) (mean (array ys))
         (pooled_std (array xs) (array ys))) (Fin 0.8) = true ->
  (2 <= List.length xs)%nat /\ (2 <= List.length ys)%nat
  /\ Statistics.sample_mean ys < Statistics.sample_mean xs.
Proof.
  rewrite effect_size_cases.
  destruct (Nat.ltb_spec (List.length xs) 2) as [Hx|Hx]; cbn [orb]; [discriminate|].
  destruct (Nat.ltb_spec (List.length ys) 2) as [Hy|Hy]; [discriminate|].
  intros Hd; split; [assumption|split; [assumption|]].
  pose proof (pooled_std_nonneg xs ys) as Hp.
  destruct (Reqb _ 0) eqn:E.
  - unfold signed_inf, gtb in Hd.
    destruct (Rltb 0 _) eqn:E1; [apply Rltb_true in E1; lra|].
    destruct (Rltb _ 0); discriminate.
  - apply Reqb_false in E; unfold gtb in Hd; simpl in Hd; apply Rltb_true in Hd.
    unfold Statistics.cohens_d, Rdiv in Hd.
    assert (0 < / Statistics.pooled_std xs ys) by (apply Rinv_0_lt_compat; lra).
    nra.
Qed.

(** With a positive optimized mean below the baseline mean the improvement
    ratio is at least 1. *)
Lemma improvement_ratio_of_speedup (mb mo : float64) :
  ltb (Fin 0) mo = true -> ltb mo mb = true -> geb (div mb mo) (Fin 1) = true.
Proof.
  unfold geb.
  destruct mb as [x| | |], mo as [y| | |]; simpl; try discriminate.
  - intros Hy Hxy; apply Rltb_true in Hy; apply Rltb_true in Hxy.
    replace (Reqb y 0) with false by (symmetry; apply Reqb_false; lra).
    cbn [leb]; apply Rleb_true.
    apply Rmult_le_reg_r with y; [assumption|].
    unfold Rdiv; rewrite Rmult_assoc, Rinv_l by lra; lra.
  - intros Hy _; apply Rltb_true in Hy.
    replace (Rltb y 0) with false by (symmetry; apply Rltb_false; lra).
    reflexivity.
Qed.

(** X7. On every pair of sample arrays a significant result has a Cohen's
    d above 0.8, and a Cohen's d above 0.8 means at least two samples in
    each group and a returned optimized mean strictly below the returned
    baseline mean; with a positive optimized mean the improvement ratio is
    then at least 1. *)
Theorem significant_is_a_speedup `{StudentT}
  (baseline_times optimized_times : ndarray) (alpha : R) :
  exists r,
    perform_hypothesis_test baseline_times optimized_times alpha = Ok r
    /\ baseline_mean r = mean baseline_times
    /\ optimized_mean r = mean optimized_times
    /\ cohens_d r
       = calculate_effect_size (mean baseline_times) (mean optimized_times)
           (pooled_std baseline_times optimized_times)
    /\ (is_significant r = true -> gtb (cohens_d r) (Fin 0.8) = true)
    /\ (gtb (cohens_d r) (Fin 0.8) = true ->
        (2 <= List.length baseline_times)%nat
        /\ (2 <= List.length optimized_times)%nat
        /\ ltb (optimized_mean r) (baseline_mean r) = true
        /\ (ltb (Fin 0) (optimized_mean r) = true ->
            geb (improvement_ratio r) (Fin 1) = true)).
Proof.
  eexists; split; [apply perform_hypothesis_test_returns|].
  cbn [is_significant improvement_ratio cohens_d baseline_mean optimized_mean].
  do 3 (split; [reflexivity|]); split.
  { intros Hs; apply andb_true_iff in Hs; destruct Hs as [_ Hd]; exact Hd. }
  intros Hd.
  assert (Hlen : (2 <= List.length baseline_times)%nat
                 /\ (2 <= List.length optimized_times)%nat).
  { destruct (Nat.ltb_spec (List.length baseline_times) 2) as [Hb|Hb];
      [rewrite effect_size_small_sample in Hd by (left; exact Hb); discriminate|].
    destruct (Nat.ltb_spec (List.length optimized_times) 2) as [Ho|Ho];
      [rewrite effect_size_small_sample in Hd by (right; exact Ho); discriminate|].
    split; assumption. }
  destruct Hlen as [Hb Ho].
  assert (Hm : ltb (mean optimized_times) (mean baseline_times) = true)
    by (apply effect_size_positive_inv in Hd; [assumption|lra]).
  repeat split; try assumption.
  intros Hpos; now apply improvement_ratio_of_speedup.
Qed.

Lemma large_effect_example :
  Statistics.sample_mean [3; 5] = 4 /\ Statistics.sample_mean [1; 1] = 1
  /\ Statistics.pooled_std [3; 5] [1; 1] = 1.
Proof.
  split; [|split].
  - unfold Statistics.sample_mean, Statistics.size, Py.sum; simpl; lra.
  - unfold Statistics.sample_mean, Statistics.size, Py.sum; simpl; lra.
  - unfold Statistics.pooled_std, Statistics.pooled_variance, Statistics.sample_variance,
      Statistics.sum_sq_dev, Statistics.sample_mean, Statistics.size, Py.sum; simpl.
    apply sqrt_lem_1; lra.
Qed.

(** Baseline [3, 5] against optimized [1, 1]: Cohen's d is 3 and the
    improvement ratio 4. *)
Lemma significant_is_a_speedup_witness :
  exists r,
    perform_hypothesis_test (H := Cauchy.student_t_one_df)
      (array [3; 5]) (array [1; 1]) alpha_default = Ok r
    /\ gtb (cohens_d r) (Fin 0.8) = true
    /\ ltb (optimized_mean r) (baseline_mean r) = true
    /\ geb (improvement_ratio r) (Fin 1) = true.
Proof.
  destruct large_effect_example as (Hmb & Hmo & Hp).
  destruct (@significant_is_a_speedup Cauchy.student_t_one_df
              (array [3; 5]) (array [1; 1]) alpha_default)
    as (r & Hr & _ & Ho & Hpin & _ & Hspeed).
  assert (Hd : gtb (cohens_d r) (Fin 0.8) = true).
  { rewrite Hpin, effect_size_array, div_Fin_nonzero by (simpl; lia || (rewrite Hp; lra)).
    rewrite Hmb, Hmo, Hp; unfold gtb; cbn [ltb]; apply Rltb_true; lra. }
  destruct (Hspeed Hd) as (_ & _ & Hlt & Hratio).
  exists r; split; [exact Hr|split; [exact Hd|split; [exact Hlt|]]].
  apply Hratio.
  rewrite Ho, mean_array, Hmo by discriminate.
  cbn [ltb]; apply Rltb_true; lra.
Defined.

Lemma t_dist_ppf_bad_df `{StudentT} (q df : R) (loc scale : float64) :
  df <= 0 -> t_dist_ppf q df loc scale = NaN.
Proof.
  intros Hdf; unfold t_dist_ppf.
  replace (Rltb 0 df) with false by (symmetry; now apply Rltb_false); reflexivity.
Qed.

(** The interval of a group with fewer than two samples is [(nan, nan)]:
    the degrees of freedom are not positive. *)
Lemma interval_small_sample `{StudentT} (a : ndarray) (q1 q2 : R) :
  (List.length a < 2)%nat ->
  (t_dist_ppf q1 (IZR (len a - 1)) (mean a) (sem a),
   t_dist_ppf q2 (IZR (len a - 1)) (mean a) (sem a))
  = (NaN, NaN).
Proof.
  intros Ha; rewrite !t_dist_ppf_bad_df; [reflexivity| |];
    apply IZR_le; unfold len; lia.
Qed.

(** X9. On every pair of sample arrays, a group with fewer than two samples
    gets the confidence interval [(nan, nan)]; nothing is raised. *)
Theorem degenerate_group_has_nan_interval `{StudentT}
  (baseline_times optimized_times : ndarray) (alpha : R) :
  exists r,
    perform_hypothesis_test baseline_times optimized_times alpha = Ok r
    /\ ((List.length baseline_times < 2)%nat -> baseline_ci r = (NaN, NaN))
    /\ ((List.length optimized_times < 2)%nat -> optimized_ci r = (NaN, NaN)).
Proof.
  eexists; split; [apply perform_hypothesis_test_returns|].
  cbn [baseline_ci optimized_ci]; split; apply interval_small_sample.
Qed.

Lemma degenerate_group_has_nan_interval_witness :
  exists r,
    perform_hypothesis_test (H := Cauchy.student_t_one_df)
      (array []) (array [2]) alpha_default = Ok r
    /\ baseline_ci r = (NaN, NaN)
    /\ optimized_ci r = (NaN, NaN).
Proof.
  destruct (@degenerate_group_has_nan_interval Cauchy.student_t_one_df
              (array []) (array [2]) alpha_default) as (r & Hr & Hb & Ho).
  exists r; split; [exact Hr|split].
  - apply Hb; simpl; lia.
  - apply Ho; simpl; lia.
Defined.

Lemma effect_size_swap (xs ys : list R) :
  calculate_effect_size (mean (array ys)) (mean (array xs))
    (pooled_std (array ys) (array xs))
  = opp (calculate_effect_size (mean (array xs)) (mean (array ys))
           (pooled_std (array xs) (array ys))).
Proof.
  rewrite !effect_size_cases, (pooled_std_sym ys xs), orb_comm.
  destruct (_ || _); [reflexivity|].
  destruct (Reqb _ 0).
  - rewrite <- signed_inf_opp; f_equal; lra.
  - cbn [opp]; f_equal; unfold Statistics.cohens_d; rewrite (pooled_std_sym ys xs).
    unfold Rdiv; lra.
Qed.

(** X10. Exchanging the two groups of finite samples negates Cohen's d, so
    the test cannot be significant in both directions. *)
Theorem swapping_groups_negates_effect `{StudentT}
  (baseline optimized : list R) (alpha : R) :
  exists r r',
    perform_hypothesis_test (array baseline) (array optimized) alpha = Ok r
    /\ perform_hypothesis_test (array optimized) (array baseline) alpha = Ok r'
    /\ cohens_d r' = opp (cohens_d r)
    /\ (is_significant r = true -> is_significant r' = false).
Proof.
  eexists; eexists; split; [apply perform_hypothesis_test_returns|].
  split; [apply perform_hypothesis_test_returns|].
  cbn [cohens_d is_significant]; split; [apply effect_size_swap|].
  intros Hs; apply andb_true_iff in Hs; destruct Hs as [_ Hd].
  destruct (large_effect_inv _ _ Hd) as (_ & _ & Hm).
  destruct (gtb (calculate_effect_size (mean (array optimized)) (mean (array baseline))
                   (pooled_std (array optimized) (array baseline))) (Fin 0.8)) eqn:Hd';
    [|apply andb_false_r].
  destruct (large_effect_inv _ _ Hd') as (_ & _ & Hm'); lra.
Qed.


(** ** The loop over the categories *)

Lemma setitem_fresh {V} (d : dict V) (k : string) (v : V) :
  ~ In k (keys d) -> setitem d k v = d ++ [(k, v)].
Proof.
  induction d as [|[k' v'] d IH]; intros Hk; simpl; [reflexivity|].
  destruct (String.eqb_spec k k') as [->|Hne].
  - exfalso; apply Hk; left; reflexivity.
  - f_equal; apply IH; intros Hin; apply Hk; right; exact Hin.
Qed.

Lemma keys_app {V} (d d' : dict V) : keys (d ++ d') = keys d ++ keys d'.
Proof. unfold keys; apply map_app. Qed.

(** With distinct names every result is appended, in the order of the
    table. *)
Lemma analyze_appends `{StudentT} (benchmark_data : dict Samples)
  (results0 : dict StatResult) :
  NoDup (keys results0 ++ keys benchmark_data) ->
  exists results,
    for_each
      (fun results item =>
         let '(benchmark_name, data) := item in
         stats_result <- perform_hypothesis_test (array (baseline data))
                           (array (optimized data)) alpha_default ;;
         ret (setitem results benchmark_name stats_result))
      benchmark_data results0 = Ok (results0 ++ results)
    /\ Forall2
         (fun item entry =>
            fst entry = fst item
            /\ perform_hypothesis_test (array (baseline (snd item)))
                 (array (optimized (snd item))) alpha_default = Ok (snd entry))
         benchmark_data results.
Proof.
  revert results0; induction benchmark_data as [|[n d] rest IH]; intros results0 Hnd.
  - exists []; rewrite app_nil_r; split; [reflexivity|constructor].
  - pose proof (perform_hypothesis_test_returns (array (baseline d))
                  (array (optimized d)) alpha_default) as Hr0.
    match type of Hr0 with _ = Ok ?r => set (r0 := r) in Hr0 end.
    cbn [for_each]; rewrite Hr0; cbn [bind ret].
    cbn [keys map fst] in Hnd; fold (keys rest) in Hnd.
    rewrite setitem_fresh by (apply NoDup_remove_2 in Hnd; intros Hin; apply Hnd;
                              apply in_or_app; left; exact Hin).
    destruct (IH (results0 ++ [(n, r0)])) as (results & Hrun & Hall).
    { rewrite keys_app, <- app_assoc; exact Hnd. }
    exists ((n, r0) :: results); split.
    + rewrite Hrun, <- app_assoc; reflexivity.
    + constructor; [split; [reflexivity|exact Hr0]|exact Hall].
Qed.

(** X12. When the names of the table are distinct, the loop over the
    categories returns results that keep the names and the order of the
    table, each being the test of its own samples at the default [alpha]. *)
Theorem analyze_keeps_the_table_order `{StudentT} (benchmark_data : dict Samples) :
  NoDup (keys benchmark_data) ->
  exists results,
    analyze benchmark_data = Ok results
    /\ keys results = keys benchmark_data
    /\ Forall2
         (fun item entry =>
            fst entry = fst item
            /\ perform_hypothesis_test (array (baseline (snd item)))
                 (array (optimized (snd item))) alpha_default = Ok (snd entry))
         benchmark_data results.
Proof.
  intros Hnd.
  destruct (analyze_appends benchmark_data [] Hnd) as (results & Hrun & Hall).
  exists results; split; [exact Hrun|split; [|exact Hall]].
  clear Hrun; induction Hall as [|item entry data results [Hk _] _ IH]; [reflexivity|].
  cbn [keys map]; f_equal; [exact Hk|apply IH].
  inversion Hnd; assumption.
Qed.

Lemma benchmark_data_names_distinct : NoDup (keys benchmark_data).
Proof.
  unfold benchmark_data; cbn [keys map fst].
  repeat constructor; simpl; intuition discriminate.
Qed.

Lemma analyze_keeps_the_table_order_witness :
  exists results,
    analyze_memory_workload_results (H := Cauchy.student_t_one_df) = Ok results
    /\ keys results = keys benchmark_data.
Proof.
  destruct (@analyze_keeps_the_table_order Cauchy.student_t_one_df benchmark_data
              benchmark_data_names_distinct) as (results & Hrun & Hkeys & _).
  exists results; split; [exact Hrun|exact Hkeys].
Defined.

(** ** The report *)

Lemma significant_results_bounds (results : dict StatResult) :
  (0 <= Count.significant_results results <= len results)%Z.
Proof.
  unfold Count.significant_results, len.
  pose proof (filter_length_le (fun item : string * StatResult => is_significant (snd item))
                results); lia.
Qed.

Lemma significant_results_app (results more : dict StatResult) :
  Count.significant_results (results ++ more)
  = (Count.significant_results results + Count.significant_results more)%Z.
Proof. unfold Count.significant_results, len; rewrite filter_app, length_app; lia. Qed.

(** The whole report of a non-empty dict of results. *)
Lemma generate_statistical_report_returns (results : dict StatResult) :
  results <> [] ->
  generate_statistical_report results
  = Ok {| total_count := len results;
          significant_count := Count.significant_results results;
          success_rate :=
            IZR (Count.significant_results results) / IZR (len results) * 100;
          average_improvement :=
            mean (map (fun item => improvement_ratio (snd item)) results);
          average_effect_size := mean (map (fun item => cohens_d (snd item)) results);
          decision :=
            if (Count.significant_results results >=? 3)%Z
            then REJECT_NULL_HYPOTHESIS else FAIL_TO_REJECT_NULL_HYPOTHESIS |}.
Proof.
  intros Hne; unfold generate_statistical_report.
  rewrite fold_count_significant, Z.add_0_l.
  rewrite truediv_nonzero by now apply IZR_len_nonzero.
  reflexivity.
Qed.

(** X13. The report raises, with [ZeroDivisionError], exactly on an empty
    dict of results.  Otherwise it counts every category, the significant
    count is between 0 and the total, and the success rate is that share as a
    percentage between 0 and 100. *)
Theorem report_counts_and_success_rate (results : dict StatResult) :
  (raises (generate_statistical_report results) <-> results = [])
  /\ (results = [] -> generate_statistical_report results = Raise ZeroDivisionError)
  /\ (results <> [] ->
      exists rep,
        generate_statistical_report results = Ok rep
        /\ total_count rep = len results
        /\ (0 <= significant_count rep <= total_count rep)%Z
        /\ success_rate rep = IZR (significant_count rep) / IZR (total_count rep) * 100
        /\ 0 <= success_rate rep <= 100).
Proof.
  split; [|split].
  - split.
    + intros [e He]; destruct results as [|item results]; [reflexivity|].
      rewrite generate_statistical_report_returns in He; discriminate.
    + intros ->; exists ZeroDivisionError; apply generate_statistical_report_empty.
  - intros ->; apply generate_statistical_report_empty.
  - intros Hne; eexists; split; [now apply generate_statistical_report_returns|].
    cbn [total_count significant_count success_rate].
    pose proof (significant_results_bounds results) as [H0 H1].
    split; [reflexivity|split; [split; assumption|split; [reflexivity|]]].
    assert (Hpos : 0 < IZR (len results)).
    { rewrite IZR_len; apply lt_0_INR; destruct results; [congruence|simpl; lia]. }
    apply IZR_le in H0, H1.
    assert (Hinv : 0 < / IZR (len results)) by now apply Rinv_0_lt_compat.
    set (c := IZR (Count.significant_results results)) in *.
    assert (Hq : 0 <= c / IZR (len results) <= 1).
    { unfold Rdiv; split; [apply Rmult_le_pos; lra|].
      apply Rmult_le_reg_r with (IZR (len results)); [assumption|].
      rewrite Rmult_assoc, Rinv_l by lra; lra. }
    lra.
Qed.

Lemma report_counts_and_success_rate_witness :
  exists rep,
    generate_statistical_report Count.nine_categories_two_significant = Ok rep
    /\ total_count rep = 9%Z
    /\ 0 <= success_rate rep <= 100.
Proof.
  destruct (report_counts_and_success_rate Count.nine_categories_two_significant)
    as (_ & _ & Hrep).
  destruct Hrep as (rep & Hrep & Ht & _ & _ & Hr); [discriminate|].
  exists rep; split; [exact Hrep|split; [exact Ht|exact Hr]].
Defined.

Lemma fold_add_NaN (xs : ndarray) : fold_left add xs NaN = NaN.
Proof. induction xs as [|x xs IH]; simpl; [reflexivity|exact IH]. Qed.

Lemma sum_with_NaN (xs : ndarray) (a : float64) : In NaN xs -> fold_left add xs a = NaN.
Proof.
  revert a; induction xs as [|x xs IH]; intros a Hx; [destruct Hx|].
  destruct Hx as [Hx|Hx]; simpl.
  - subst x; rewrite add_NaN_r; apply fold_add_NaN.
  - apply IH; exact Hx.
Qed.

Lemma mean_with_NaN (xs : ndarray) : In NaN xs -> mean xs = NaN.
Proof. intros Hx; unfold mean, Numpy.sum; rewrite (sum_with_NaN _ _ Hx); reflexivity. Qed.

(** X14. One category whose Cohen's d is [nan] makes the report's average
    effect size [nan], and one whose improvement ratio is [nan] makes the
    average improvement [nan]; the decision is not affected. *)
Theorem nan_category_spoils_the_averages (results : dict StatResult)
  (name : string) (stats : StatResult) :
  In (name, stats) results ->
  exists rep,
    generate_statistical_report results = Ok rep
    /\ (cohens_d stats = NaN -> average_effect_size rep = NaN)
    /\ (improvement_ratio stats = NaN -> average_improvement rep = NaN)
    /\ decision rep
       = if (Count.significant_results results >=? 3)%Z
         then REJECT_NULL_HYPOTHESIS else FAIL_TO_REJECT_NULL_HYPOTHESIS.
Proof.
  intros Hin.
  assert (Hne : results <> []) by (destruct results; [destruct Hin|discriminate]).
  eexists; split; [now apply generate_statistical_report_returns|].
  cbn [average_effect_size average_improvement decision].
  split; [|split; [|reflexivity]]; intros Hnan; apply mean_with_NaN; rewrite <- Hnan.
  - apply (in_map (fun item => cohens_d (snd item)) _ _ Hin).
  - apply (in_map (fun item => improvement_ratio (snd item)) _ _ Hin).
Qed.

(** Two groups of two equal samples (Cohen's d is [nan]) among the results. *)
Lemma nan_category_spoils_the_averages_witness :
  exists stats rep,
    perform_hypothesis_test (H := Cauchy.student_t_one_df)
      (array [1; 1]) (array [1; 1]) alpha_default = Ok stats
    /\ generate_statistical_report
         [("flat"%string, stats); ("c1"%string, Count.verdict true)] = Ok rep
    /\ average_effect_size rep = NaN.
Proof.
  pose proof (perform_hypothesis_test_returns (H := Cauchy.student_t_one_df)
                (array [1; 1]) (array [1; 1]) alpha_default) as Hs.
  match type of Hs with _ = Ok ?r => set (stats := r) in Hs end.
  destruct (nan_category_spoils_the_averages
              [("flat"%string, stats); ("c1"%string, Count.verdict true)]
              "flat"%string stats) as (rep & Hrep & Hd & _); [left; reflexivity|].
  exists stats, rep; split; [exact Hs|split; [exact Hrep|]].
  apply Hd; subst stats; cbn [cohens_d].
  rewrite effect_size_zero_variance;
    try apply sample_variance_constant_pair; try (simpl; lia).
  rewrite Rminus_diag; unfold signed_inf; cmp.
Defined.

(** X15. Categories added to a non-empty dict of results never withdraw a
    rejection, and categories that are not significant never change the
    decision. *)
Theorem more_categories_keep_a_rejection (results more : dict StatResult) :
  results <> [] ->
  exists rep rep',
    generate_statistical_report results = Ok rep
    /\ generate_statistical_report (results ++ more) = Ok rep'
    /\ (decision rep = REJECT_NULL_HYPOTHESIS -> decision rep' = REJECT_NULL_HYPOTHESIS)
    /\ (Forall (fun item => is_significant (snd item) = false) more ->
        decision rep' = decision rep).
Proof.
  intros Hne.
  assert (Hne' : results ++ more <> [])
    by (destruct results; [congruence|discriminate]).
  eexists; eexists; split; [now apply generate_statistical_report_returns|].
  split; [now apply generate_statistical_report_returns|].
  cbn [decision]; rewrite significant_results_app, !Z.geb_leb.
  pose proof (significant_results_bounds more) as [Hm _].
  split.
  - destruct (Z.leb_spec 3 (Count.significant_results results)); [|discriminate].
    intros _; destruct (Z.leb_spec 3 (Count.significant_results results
                                      + Count.significant_results more)); [reflexivity|lia].
  - intros Hall; replace (Count.significant_results more) with 0%Z;
      [rewrite Z.add_0_r; reflexivity|].
    unfold Count.significant_results, len; clear Hne' Hm.
    induction Hall as [|item more Hitem _ IH]; [reflexivity|].
    cbn [filter]; rewrite Hitem; exact IH.
Qed.

Lemma more_categories_keep_a_rejection_witness :
  exists rep rep',
    generate_statistical_report
      [("c1"%string, Count.verdict true); ("c2"%string, Count.verdict true);
       ("c3"%string, Count.verdict true)] = Ok rep
    /\ generate_statistical_report
         ([("c1"%string, Count.verdict true); ("c2"%string, Count.verdict true);
           ("c3"%string, Count.verdict true)]
          ++ [("c4"%string, Count.verdict false)]) = Ok rep'
    /\ decision rep = REJECT_NULL_HYPOTHESIS
    /\ decision rep' = REJECT_NULL_HYPOTHESIS.
Proof.
  destruct (more_categories_keep_a_rejection
              [("c1"%string, Count.verdict true); ("c2"%string, Count.verdict true);
               ("c3"%string, Count.verdict true)]
              [("c4"%string, Count.verdict false)])
    as (rep & rep' & Hrep & Hrep' & Hkeep & _); [discriminate|].
  assert (Hd : decision rep = REJECT_NULL_HYPOTHESIS).
  { rewrite generate_statistical_report_returns in Hrep by discriminate.
    injection Hrep as <-; reflexivity. }
  exists rep, rep'; repeat split; auto.
Defined.

(** ** [main] *)

Lemma analyze_nonempty `{StudentT} (benchmark_data : dict Samples) :
  benchmark_data <> [] ->
  exists results, analyze benchmark_data = Ok results /\ results <> [].
Proof.
  intros Hne.
  destruct (analyze_entries benchmark_data benchmark_data [] (incl_refl _))
    as (results & Hrun & Hkeys & _); [intros name r; simpl; discriminate|].
  exists results; split; [exact Hrun|].
  destruct benchmark_data as [|[n d] rest]; [congruence|].
  destruct (Hkeys n) as [r Hr]; [left; left; reflexivity|].
  intros ->; discriminate.
Qed.

Lemma fold_add_ones {A} (xs : list A) (a : Z) :
  fold_left Z.add (map (fun _ => 1%Z) xs) a = (a + len xs)%Z.
Proof.
  revert a; induction xs as [|x xs IH]; intros a.
  - unfold len; simpl; lia.
  - cbn [map fold_left]; rewrite IH; unfold len; cbn [List.length]; lia.
Qed.

Lemma filter_map_snd {A B} (f : B -> bool) (xs : list (A * B)) :
  filter f (map snd xs) = map snd (filter (fun item => f (snd item)) xs).
Proof.
  induction xs as [|x xs IH]; [reflexivity|].
  cbn [map filter]; destruct (f (snd x)); cbn [map]; now rewrite IH.
Qed.

(** The count [main] makes for its summary is the report's. *)
Lemma main_count (results : dict StatResult) :
  fold_left Z.add
    (map (fun _ => 1%Z) (filter (fun stats => is_significant stats) (map snd results)))
    0%Z
  = Count.significant_results results.
Proof.
  rewrite fold_add_ones, filter_map_snd, len_map; reflexivity.
Qed.

(** X16. On an empty table [main] stops with the report's
    [ZeroDivisionError].  On any other table it ends, and the key results it
    prints agree with the report it has written: the same counts, success
    rate and average improvement, and "rejected" exactly when the report
    decides to reject. *)
Theorem main_agrees_with_the_report `{StudentT} (benchmark_data : dict Samples) :
  (benchmark_data = [] -> main_on benchmark_data = Raise ZeroDivisionError)
  /\ (benchmark_data <> [] ->
      exists results out,
        analyze benchmark_data = Ok results
        /\ main_on benchmark_data = Ok out
        /\ generate_statistical_report results = Ok (report out)
        /\ charts out = generate_performance_charts results
        /\ key_significant_count out = significant_count (report out)
        /\ key_total_count out = total_count (report out)
        /\ key_success_rate out = success_rate (report out)
        /\ key_average_improvement out = average_improvement (report out)
        /\ (verdict out = NULL_HYPOTHESIS_REJECTED
            <-> decision (report out) = REJECT_NULL_HYPOTHESIS)).
Proof.
  split.
  - intros ->; unfold main_on, analyze; cbn [for_each bind].
    rewrite generate_statistical_report_empty; reflexivity.
  - intros Hne; destruct (analyze_nonempty benchmark_data Hne) as (results & Hrun & Hres).
    exists results; eexists; split; [exact Hrun|].
    unfold main_on; rewrite Hrun; cbn [bind].
    rewrite (generate_statistical_report_returns results Hres); cbn [bind].
    rewrite main_count, truediv_nonzero by now apply IZR_len_nonzero.
    cbn [bind ret]; split; [reflexivity|].
    cbn [report charts key_significant_count key_total_count key_success_rate
         key_average_improvement verdict significant_count total_count success_rate
         average_improvement decision].
    rewrite map_map; repeat split; try reflexivity.
    + destruct (_ >=? 3)%Z; [reflexivity|discriminate].
    + destruct (_ >=? 3)%Z; [reflexivity|discriminate].
Qed.

Lemma main_agrees_with_the_report_witness :
  exists out,
    main (H := Cauchy.student_t_one_df) = Ok out
    /\ key_total_count out = 5%Z
    /\ key_significant_count out = significant_count (report out)
    /\ (verdict out = NULL_HYPOTHESIS_REJECTED
        <-> decision (report out) = REJECT_NULL_HYPOTHESIS).
Proof.
  destruct (@main_agrees_with_the_report Cauchy.student_t_one_df benchmark_data)
    as [_ Hmain].
  destruct Hmain as (results & out & Hrun & Hout & Hrep & _ & Hc & Ht & _ & _ & Hv);
    [discriminate|].
  exists out; split; [exact Hout|split; [|split; [exact Hc|exact Hv]]].
  destruct (@analyze_appends Cauchy.student_t_one_df benchmark_data []
              benchmark_data_names_distinct) as (results' & Hrun' & Hall).
  fold (analyze (H := Cauchy.student_t_one_df) benchmark_data) in Hrun'.
  rewrite Hrun in Hrun'; injection Hrun' as ->.
  assert (Hne : results' <> [])
    by (intros ->; apply Forall2_length in Hall; discriminate).
  rewrite (generate_statistical_report_returns results' Hne) in Hrep.
  rewrite Ht; injection Hrep as <-; cbn [total_count].
  unfold len; rewrite <- (Forall2_length Hall); reflexivity.
Defined.

(** ** The charts *)

Lemma Forall_setitem {V} (Q : V -> Prop) (d : dict V) (k : string) (v : V) :
  Forall (fun entry => Q (snd entry)) d -> Q v ->
  Forall (fun entry => Q (snd entry)) (setitem d k v).
Proof.
  intros Hd Hv; induction Hd as [|[k' v'] d Hx Hd IH]; simpl.
  - constructor; [exact Hv|constructor].
  - destruct (String.eqb k k'); constructor; assumption.
Qed.

(** Every result the loop stores carries the verdict of the default
    [alpha] on its own p-value and Cohen's d. *)
Lemma analyze_verdicts `{StudentT} (benchmark_data : dict Samples)
  (results0 : dict StatResult) :
  Forall (fun entry =>
            is_significant (snd entry)
            = ltb (p_value (snd entry)) (Fin 0.05) && gtb (cohens_d (snd entry)) (Fin 0.8))
         results0 ->
  exists results,
    for_each
      (fun results item =>
         let '(benchmark_name, data) := item in
         stats_result <- perform_hypothesis_test (array (baseline data))
                           (array (optimized data)) alpha_default ;;
         ret (setitem results benchmark_name stats_result))
      benchmark_data results0 = Ok results
    /\ Forall (fun entry =>
                 is_significant (snd entry)
                 = ltb (p_value (snd entry)) (Fin 0.05)
                   && gtb (cohens_d (snd entry)) (Fin 0.8))
              results.
Proof.
  revert results0; induction benchmark_data as [|[n d] rest IH]; intros results0 Hinv.
  - exists results0; split; [reflexivity|exact Hinv].
  - cbn [for_each]; rewrite perform_hypothesis_test_returns; cbn [bind ret].
    apply IH.
    apply (Forall_setitem
             (fun r => is_significant r
                       = ltb (p_value r) (Fin 0.05) && gtb (cohens_d r) (Fin 0.8)));
      [exact Hinv|reflexivity].
Qed.

(** X17. In the charts of the results of any table, a category is
    significant exactly when its bar is green both in the p-value panel and
    in the effect-size panel; the panels have one bar per result. *)
Theorem significant_is_green_twice `{StudentT} (benchmark_data : dict Samples) :
  exists results,
    analyze benchmark_data = Ok results
    /\ benchmarks (generate_performance_charts results) = keys results
    /\ List.length (ax2_colors (generate_performance_charts results))
       = List.length results
    /\ List.length (ax3_colors (generate_performance_charts results))
       = List.length results
    /\ map (fun entry => is_significant (snd entry)) results
       = map (fun colors => Panels.is_green (fst colors) && Panels.is_green (snd colors))
             (combine (ax2_colors (generate_performance_charts results))
                      (ax3_colors (generate_performance_charts results))).
Proof.
  destruct (analyze_verdicts benchmark_data []) as (results & Hrun & Hall);
    [constructor|].
  exists results; split; [exact Hrun|].
  cbn [generate_performance_charts benchmarks ax2_colors ax3_colors].
  rewrite !length_map; repeat split; clear Hrun.
  induction Hall as [|entry results Hentry _ IH]; [reflexivity|].
  cbn [map combine fst snd]; f_equal; [|exact IH].
  rewrite Hentry.
  destruct (ltb (p_value (snd entry)) (Fin 0.05)); cbn [Panels.is_green andb];
    [|reflexivity].
  destruct (gtb (cohens_d (snd entry)) (Fin 0.8)); [reflexivity|].
  destruct (gtb (cohens_d (snd entry)) (Fin 0.5)); reflexivity.
Qed.

Lemma ln_10_pos : 0 < ln 10.
Proof. rewrite <- ln_1; apply ln_increasing; lra. Qed.

(** The bar of a p-value that is not negative: above the dashed line only
    below 0.05, and at or above the line whenever below 0.05. *)
Lemma bar_and_threshold (p : float64) :
  ltb p (Fin 0) = false ->
  (gtb (opp (log10 p)) (opp (log10 (Fin 0.05))) = true -> ltb p (Fin 0.05) = true)
  /\ (ltb p (Fin 0.05) = true ->
      geb (opp (log10 p)) (opp (log10 (Fin 0.05))) = true).
Proof.
  pose proof ln_10_pos as H10.
  assert (Hinv : 0 < / ln 10) by now apply Rinv_0_lt_compat.
  assert (Hline : log10 (Fin 0.05) = Fin (ln 0.05 / ln 10)).
  { cbn [log10].
    replace (Rltb 0.05 0) with false by (symmetry; apply Rltb_false; lra).
    replace (Reqb 0.05 0) with false by (symmetry; apply Reqb_false; lra).
    reflexivity. }
  rewrite Hline; destruct p as [x| | |]; cbn [ltb log10 opp gtb geb leb]; intros Hneg;
    try (split; intros; congruence).
  rewrite Hneg; apply Rltb_false in Hneg.
  destruct (Reqb x 0) eqn:E0; [apply Reqb_true in E0|apply Reqb_false in E0].
  - subst x; cbn [opp ltb leb]; split; intros _; [apply Rltb_true; lra|reflexivity].
  - cbn [opp ltb leb]; split; intros E.
    + apply Rltb_true in E; apply Rltb_true.
      destruct (Rlt_dec x 0.05) as [Hlt|Hge]; [exact Hlt|exfalso].
      assert (ln 0.05 <= ln x).
      { destruct (Req_dec_T x 0.05) as [->|Hne]; [lra|left; apply ln_increasing; lra]. }
      unfold Rdiv in E; nra.
    + apply Rltb_true in E; apply Rleb_true.
      assert (ln x < ln 0.05) by (apply ln_increasing; lra).
      unfold Rdiv; nra.
Qed.

(** X18. In the p-value panel, when no p-value is negative, a bar that
    rises above the dashed threshold line is green and a green bar is never
    below the line; green means a p-value below 0.05 (a p-value of 0 gives an
    infinite bar, [nan] a red one). *)
Theorem green_bars_clear_the_threshold (results : dict StatResult) :
  Forall (fun entry => ltb (p_value (snd entry)) (Fin 0) = false) results ->
  Forall2
    (fun height color =>
       (gtb height (ax2_axhline (generate_performance_charts results)) = true ->
        Panels.is_green color = true)
       /\ (Panels.is_green color = true ->
           geb height (ax2_axhline (generate_performance_charts results)) = true))
    (log_p_values (generate_performance_charts results))
    (ax2_colors (generate_performance_charts results))
  /\ map Panels.is_green (ax2_colors (generate_performance_charts results))
     = map (fun entry => ltb (p_value (snd entry)) (Fin 0.05)) results.
Proof.
  intros Hall; cbn [generate_performance_charts log_p_values ax2_colors ax2_axhline].
  split.
  - induction Hall as [|entry results Hentry _ IH]; [constructor|].
    cbn [map]; constructor; [|exact IH].
    destruct (bar_and_threshold _ Hentry) as [Habove Hgreen].
    destruct (ltb (p_value (snd entry)) (Fin 0.05)) eqn:E; cbn [Panels.is_green]; split;
      intros Hx; auto; discriminate.
  - rewrite !map_map; apply map_ext; intros entry.
    destruct (ltb (p_value (snd entry)) (Fin 0.05)); reflexivity.
Qed.

Lemma green_bars_clear_the_threshold_witness :
  map Panels.is_green
      (ax2_colors (generate_performance_charts Count.nine_categories_two_significant))
  = [true; true; true; true; true; true; true; true; true].
Proof.
  destruct (green_bars_clear_the_threshold Count.nine_categories_two_significant)
    as [_ Hgreen].
  - unfold Count.nine_categories_two_significant.
    repeat constructor; cbn [snd p_value Count.verdict ltb]; apply Rltb_false; lra.
  - rewrite Hgreen.
    unfold Count.nine_categories_two_significant; cbn [map snd p_value Count.verdict ltb].
    replace (Rltb 0.01 0.05) with true by (symmetry; apply Rltb_true; lra).
    reflexivity.
Defined.

(** ** The two statistics of one test *)



